(** * Scaling of the RKE2 control plane: a shallow embedding of
      [controlplane/internal/controllers/scale.go]

    The reconciler's scale operations are embedded as functions over an
    explicit world (the object store, the requests issued to it, the events
    recorded).  Go's multiple results become tuples, [error] becomes
    [option error] ([None] is [nil]), pointers become [option]s, and a nil
    pointer dereference is the outcome [Panicked].  Calls to the logger are
    left out: they return nothing and change nothing the operations read. *)

From Stdlib Require Import Ascii String.
From stdpp Require Import base option strings list gmap.

Set Warnings "-register-all".
Open Scope string_scope.

(** ** Errors *)

(** The reasons of [metav1.StatusReason] that a store request can come back
    with.  [apierrors.IsNotFound] looks at this reason only. *)
Inductive StatusReason :=
  | StatusReasonNotFound
  | StatusReasonAlreadyExists
  | StatusReasonForbidden
  | StatusReasonConflict
  | StatusReasonTimeout
  | StatusReasonInternalError.

(** An argument of a format string ([%s], [%d], [%v]). *)
Inductive FmtArg :=
  | ArgS (s : string)
  | ArgD (n : nat).

(** Go's [error] values as the controller builds them: a status error of the
    store client, [errors.New]/[errors.Errorf] (the format and its arguments
    are kept apart, nothing is rendered), [errors.Wrap], and the aggregate of
    [kerrors.NewAggregate]. *)
Inductive error :=
  | StatusError (reason : StatusReason)
  | Errorf (format : string) (args : list FmtArg)
  | Wrap (err : error) (message : string)
  | Aggregate (errs : list error).

(** [apierrors.IsNotFound], on an error as the client returned it. *)
Definition IsNotFound (err : error) : bool :=
  match err with
  | StatusError StatusReasonNotFound => true
  | _ => false
  end.

(** [kerrors.NewAggregate]: [nil] for an empty list, the aggregate otherwise
    (no element is [nil] here: [option] is stripped where the source appends
    only non-nil errors). *)
Definition NewAggregate (errlist : list error) : option error :=
  match errlist with
  | [] => None
  | _ :: _ => Some (Aggregate errlist)
  end.

(** ** The version translator *)

(** The regular expression of [rke2ToKubeVersion],
    [v(\d\.\d{2}\.\d)\+rke2r\d], is a sequence of one-character atoms: a
    literal byte or the class [\d] (ASCII digits in Go), with one capture
    group.  It is kept as the three runs of atoms before, inside and after
    the group. *)
Inductive Atom :=
  | Lit (c : ascii)
  | Digit.

Definition isDigit (c : ascii) : bool :=
  (Ascii.leb "0" c && Ascii.leb c "9")%bool.

Definition matchAtom (a : Atom) (c : ascii) : bool :=
  match a with
  | Lit l => Ascii.eqb l c
  | Digit => isDigit c
  end.

(** [matchAtoms p s]: when [s] starts with text matched by [p], that text and
    what follows it. *)
Fixpoint matchAtoms (p : list Atom) (s : string) : option (string * string) :=
  match p with
  | [] => Some (EmptyString, s)
  | a :: p' =>
      match s with
      | EmptyString => None
      | String c s' =>
          if matchAtom a c then
            match matchAtoms p' s' with
            | Some (m, rest) => Some (String c m, rest)
            | None => None
            end
          else None
      end
  end.

Record Regexp := {
  beforeGroup : list Atom;
  group1 : list Atom;
  afterGroup : list Atom;
}.

(** [regexp.Compile "v(\\d\\.\\d{2}\\.\\d)\\+rke2r\\d"]. *)
Definition regexStr : Regexp := {|
  beforeGroup := [Lit "v"];
  group1 := [Digit; Lit "."; Digit; Digit; Lit "."; Digit];
  afterGroup := [Lit "+"; Lit "r"; Lit "k"; Lit "e"; Lit "2"; Lit "r"; Digit];
|}.

Definition width (re : Regexp) : nat :=
  length (beforeGroup re) + length (group1 re) + length (afterGroup re).

(** A match of [re] that starts at the first byte of [s]: the text of group 1
    and the text after the match. *)
Definition matchHere (re : Regexp) (s : string) : option (string * string) :=
  match matchAtoms (beforeGroup re) s with
  | None => None
  | Some (_, s1) =>
      match matchAtoms (group1 re) s1 with
      | None => None
      | Some (g, s2) =>
          match matchAtoms (afterGroup re) s2 with
          | None => None
          | Some (_, s3) => Some (g, s3)
          end
      end
  end.

(** [regexp.MatchString]: some match starts somewhere in [s] (Go's matching
    is not anchored). *)
Fixpoint MatchString (re : Regexp) (s : string) : bool :=
  match matchHere re s with
  | Some _ => true
  | None =>
      match s with
      | EmptyString => false
      | String _ s' => MatchString re s'
      end
  end.

(** [re.ReplaceAll(src, "$1")]: scanning from the left, every match is
    replaced by the text of its group 1 and the scan goes on after the match;
    bytes outside a match are copied.  [skip] counts the bytes of the current
    match still to be passed over (a match of this expression is never empty,
    so Go's special case for empty matches does not arise). *)
Fixpoint replaceAllFrom (re : Regexp) (skip : nat) (src : string) : string :=
  match src with
  | EmptyString => EmptyString
  | String c rest =>
      match skip with
      | S k => replaceAllFrom re k rest
      | O =>
          match matchHere re src with
          | Some (g, _) => g ++ replaceAllFrom re (width re - 1) rest
          | None => String c (replaceAllFrom re 0 rest)
          end
      end
  end.

Definition ReplaceAll (re : Regexp) (src : string) : string :=
  replaceAllFrom re 0 src.

(** [rke2ToKubeVersion]: the expression always compiles, so the error
    branch of [regexp.Compile] is never taken. *)
Definition rke2ToKubeVersion (rk2Version : string) : string * option error :=
  let regex := regexStr in
  let kubeVersion := ReplaceAll regex rk2Version in
  (kubeVersion, None).

(** ** Kubernetes objects

    Only the fields the scale operations read or write are kept; the nested
    [ObjectMeta], [Spec] and [Status] structs are flattened. *)

Module ObjectReference.
(** [corev1.ObjectReference]. *)
Record t := {
  Kind : string;
  Namespace : string;
  Name : string;
  UID : string;
  APIVersion : string;
}.
End ObjectReference.

Module OwnerReference.
(** [metav1.OwnerReference]; [Controller] is a [*bool]. *)
Record t := {
  APIVersion : string;
  Kind : string;
  Name : string;
  UID : string;
  Controller : option bool;
}.
End OwnerReference.

Module Condition.
(** [clusterv1.Condition]; [Type_] is its [Type] field, [Status] a
    [corev1.ConditionStatus] (a string). *)
Record t := {
  Type_ : string;
  Status : string;
  Severity : string;
  Message : string;
}.
End Condition.

Definition ConditionTrue : string := "True".
Definition ConditionFalse : string := "False".
Definition ConditionUnknown : string := "Unknown".

(** [controlplanev1.MachineAgentHealthyCondition]. *)
Definition MachineAgentHealthyCondition : string := "AgentHealthy".

(** [clusterv1.DeleteMachineAnnotation], the delete-requested annotation. *)
Definition DeleteMachineAnnotation : string := "cluster.x-k8s.io/delete-machine".

(** [controlplanev1.RKE2ServerConfigurationAnnotation]. *)
Definition RKE2ServerConfigurationAnnotation : string :=
  "controlplane.cluster.x-k8s.io/rke2-server-configuration".

(** [controlplanev1.GroupVersion.String()] and
    [bootstrapv1.GroupVersion.String()]. *)
Definition controlplanev1_GroupVersion : string := "controlplane.cluster.x-k8s.io/v1alpha1".
Definition bootstrapv1_GroupVersion : string := "bootstrap.cluster.x-k8s.io/v1alpha1".

Module Machine.
(** [clusterv1.Machine], a control-plane member.  [DeletionTimestamp] is
    the deletion marker, [FailureDomain] a [*string], [Version] a
    [*string], [ConfigRef] is [Spec.Bootstrap.ConfigRef]. *)
Record t := {
  Name : string;
  Namespace : string;
  UID : string;
  Labels : gmap string string;
  Annotations : gmap string string;
  OwnerReferences : list OwnerReference.t;
  DeletionTimestamp : option nat;
  ClusterName : string;
  Version : option string;
  InfrastructureRef : ObjectReference.t;
  ConfigRef : option ObjectReference.t;
  FailureDomain : option string;
  NodeDrainTimeout : option nat;
  Conditions : list Condition.t;
}.
End Machine.

(** The payloads the controller only hands on.  An agent configuration is
    kept as an opaque text; a server configuration as what [json.Marshal]
    makes of it. *)
Definition RKE2AgentConfig : Type := string.

Inductive RKE2ServerConfig :=
  | ServerConfig (json : string)
  | Unmarshalable (err : error).

Definition json_Marshal (c : RKE2ServerConfig) : string * option error :=
  match c with
  | ServerConfig json => (json, None)
  | Unmarshalable err => ("", Some err)
  end.

Module RKE2Config.
(** [bootstrapv1.RKE2Config]. *)
Record t := {
  Name : string;
  Namespace : string;
  Labels : gmap string string;
  OwnerReferences : list OwnerReference.t;
  AgentConfig : RKE2AgentConfig;
}.
End RKE2Config.

Module RKE2ControlPlane.
(** [controlplanev1.RKE2ControlPlane]; the agent configuration is embedded
    in its spec. *)
Record t := {
  Name : string;
  Namespace : string;
  UID : string;
  Version : string;
  InfrastructureRef : ObjectReference.t;
  AgentConfig : RKE2AgentConfig;
  ServerConfig : RKE2ServerConfig;
  NodeDrainTimeout : option nat;
}.
End RKE2ControlPlane.

Module Cluster.
(** [clusterv1.Cluster]; [FailureDomains] lists the identifiers of the
    control-plane failure domains of its status, as enumerated. *)
Record t := {
  Name : string;
  Namespace : string;
  FailureDomains : list string;
}.
End Cluster.

(** ** Results of a reconciliation pass *)

(** Modelled from the spec: the two backoff constants [deleteRequeueAfter]
    and [preflightFailedRequeueAfter] are declared outside scale.go.  The spec
    has them as two different fixed backoffs, so a [time.Duration] of a result
    is zero or one of the two, kept symbolic. *)
Inductive Duration :=
  | zeroDuration
  | deleteRequeueAfter
  | preflightFailedRequeueAfter.

(** [ctrl.Result]. *)
Record Result := {
  Requeue : bool;
  RequeueAfter : Duration;
}.

(** [ctrl.Result{}]. *)
Definition emptyResult : Result := {| Requeue := false; RequeueAfter := zeroDuration |}.

Definition IsZero (r : Result) : bool :=
  negb (Requeue r) &&
  match RequeueAfter r with zeroDuration => true | _ => false end.

(** ** The world: the object store and what the reconciler does to it *)

(** An object is stored under its kind, namespace and name. *)
Definition ObjectKey : Type := string * string * string.

Module InfraMachine.
(** What [external.CloneTemplate] creates from the infrastructure
    template. *)
Record t := {
  Ref : ObjectReference.t;
  OwnerRef : OwnerReference.t;
  ClusterName : string;
  Labels : gmap string string;
}.
End InfraMachine.

Inductive Object :=
  | InfraObject (i : InfraMachine.t)
  | ConfigObject (c : RKE2Config.t)
  | MachineObject (m : Machine.t).

(** The requests the reconciler sends to the store. *)
Inductive Call :=
  | CallList
  | CallClone (template : ObjectReference.t)
  | CallCreate (key : ObjectKey)
  | CallDelete (key : ObjectKey).

(** A failure of the store that does not depend on its contents.  "Not
    found" and "already exists" are not among them: the store answers those
    from its contents. *)
Inductive Fault :=
  | FaultForbidden
  | FaultConflict
  | FaultTimeout
  | FaultInternalError.

Definition reasonOf (f : Fault) : StatusReason :=
  match f with
  | FaultForbidden => StatusReasonForbidden
  | FaultConflict => StatusReasonConflict
  | FaultTimeout => StatusReasonTimeout
  | FaultInternalError => StatusReasonInternalError
  end.

(** An argument of an event's message. *)
Inductive EventArg :=
  | EvS (s : string)
  | EvV (err : option error).

(** What [recorder.Eventf] records. *)
Record Event := {
  eventtype : string;
  reason : string;
  messageFmt : string;
  messageArgs : list EventArg;
}.

Definition EventTypeWarning : string := "Warning".

(** [objects]: the contents of the store.  [calls]: the requests issued so
    far, oldest first.  [events]: the events recorded so far.  [faults]: what
    the store is going to answer to the coming requests, one entry per
    request ([None], or no entry left: the request is served).  [rand]: the
    suffixes [names.SimpleNameGenerator] is going to draw. *)
Record World := {
  objects : gmap ObjectKey Object;
  calls : list Call;
  events : list Event;
  faults : list (option Fault);
  rand : list string;
}.

Inductive Outcome (A : Type) :=
  | Returned (a : A)
  | Panicked (msg : string).
Arguments Returned {A} a.
Arguments Panicked {A} msg.

(** A computation of the reconciler: it returns or panics, and leaves a
    world. *)
Definition M (A : Type) : Type := World → Outcome A * World.

#[global] Instance M_ret : MRet M := λ A a w, (Returned a, w).

#[global] Instance M_bind : MBind M := λ A B f m w,
  match m w with
  | (Returned a, w') => f a w'
  | (Panicked msg, w') => (Panicked msg, w')
  end.

Definition nilDereference : string :=
  "runtime error: invalid memory address or nil pointer dereference".

Definition panic {A} (msg : string) : M A := λ w, (Panicked msg, w).

(** Dereference of a pointer. *)
Definition deref {A} (p : option A) : M A :=
  match p with
  | Some a => mret a
  | None => panic nilDereference
  end.

(** Sending a request: it is logged and the store's next answer is drawn. *)
Definition request (c : Call) : M (option Fault) := λ w,
  (Returned (mjoin (head (faults w))),
   {| objects := objects w; calls := calls w ++ [c]; events := events w;
      faults := tail (faults w); rand := rand w |}).

Definition getObject (key : ObjectKey) : M (option Object) := λ w,
  (Returned (objects w !! key), w).

Definition setObjects (f : gmap ObjectKey Object → gmap ObjectKey Object) : M unit := λ w,
  (Returned (),
   {| objects := f (objects w); calls := calls w; events := events w;
      faults := faults w; rand := rand w |}).

(** [r.recorder.Eventf]. *)
Definition Eventf (eventtype reason messageFmt : string) (args : list EventArg) : M unit := λ w,
  (Returned (),
   {| objects := objects w; calls := calls w;
      events := events w ++ [{| eventtype := eventtype; reason := reason;
                                messageFmt := messageFmt; messageArgs := args |}];
      faults := faults w; rand := rand w |}).

(** [names.SimpleNameGenerator.GenerateName]: the base and a drawn suffix. *)
Definition GenerateName (base : string) : M string := λ w,
  (Returned (base ++ default "" (head (rand w))),
   {| objects := objects w; calls := calls w; events := events w;
      faults := faults w; rand := tail (rand w) |}).

(** [r.Client.Create]: fails as the store decides, or because an object is
    already stored under the key; stores the object otherwise. *)
Definition Client_Create (key : ObjectKey) (o : Object) : M (option error) :=
  f ← request (CallCreate key);
  match f with
  | Some f => mret (Some (StatusError (reasonOf f)))
  | None =>
      old ← getObject key;
      match old with
      | Some _ => mret (Some (StatusError StatusReasonAlreadyExists))
      | None => setObjects (insert key o);; mret None
      end
  end.

(** [r.Client.Delete]: fails as the store decides, or with "not found" when
    nothing is stored under the key; removes the object otherwise. *)
Definition Client_Delete (key : ObjectKey) : M (option error) :=
  f ← request (CallDelete key);
  match f with
  | Some f => mret (Some (StatusError (reasonOf f)))
  | None =>
      old ← getObject key;
      match old with
      | None => mret (Some (StatusError StatusReasonNotFound))
      | Some _ => setObjects (delete key);; mret None
      end
  end.

(** ** The control-plane view ([rke2.ControlPlane])

    The package that declares the view is not part of the sources at hand;
    scale.go uses the fields and methods below. *)

Module ControlPlane.
(** [Machines] is the [FilterableMachineCollection] of the view, kept in
    the order it is enumerated. *)
Record t := {
  RCP : RKE2ControlPlane.t;
  Cluster : Cluster.t;
  Machines : list Machine.t;
}.
End ControlPlane.

(** The label a cluster's objects carry, as in samples/vmware/cluster.yaml. *)
Definition ClusterNameLabel : string := "cluster.x-k8s.io/cluster-name".

(** Modelled from the spec: [rke2.ControlPlaneLabelsForCluster] is declared
    outside scale.go; a child is "labeled with cluster identity". *)
Definition ControlPlaneLabelsForCluster (clusterName : string) : gmap string string :=
  {[ ClusterNameLabel := clusterName ]}.

(** [machinefilters.HasDeletionTimestamp]: the deletion marker is set. *)
Definition HasDeletionTimestamp (m : Machine.t) : bool :=
  bool_decide (is_Some (Machine.DeletionTimestamp m)).

(** Modelled from the spec: [HasDeletingMachine] is declared outside
    scale.go; it is the view's [HasDeletingMember() → bool], true when a
    member of the view has a deletion marker (the set [preflightChecks] logs as
    [Machines.Filter(machinefilters.HasDeletionTimestamp)]). *)
Definition HasDeletingMachine (c : ControlPlane.t) : bool :=
  bool_decide (0 < length (List.filter HasDeletionTimestamp (ControlPlane.Machines c))).

(** [machinefilters.HasAnnotationKey]. *)
Definition HasAnnotationKey (key : string) (m : Machine.t) : bool :=
  bool_decide (is_Some (Machine.Annotations m !! key)).

(** Modelled from the spec: [MachineWithDeleteAnnotation] is declared outside
    scale.go; it keeps the members "carrying a delete requested annotation". *)
Definition MachineWithDeleteAnnotation (c : ControlPlane.t) (machines : list Machine.t)
  : list Machine.t :=
  List.filter (HasAnnotationKey DeleteMachineAnnotation) machines.

(** [machinefilters.InFailureDomains] for one domain (a [*string]). *)
Definition InFailureDomain (fd : option string) (m : Machine.t) : bool :=
  bool_decide (Machine.FailureDomain m = fd).

(** The number of members of [machines] in the domain [fd]. *)
Definition membersIn (machines : list Machine.t) (fd : option string) : nat :=
  length (List.filter (InFailureDomain fd) machines).

(** Modelled from the spec: [FailureDomainWithMostMembers(candidates) →
    domain], the domain holding the most members of the candidates; domains
    are enumerated in the order their members appear and the first of the
    fullest ones is kept. *)
Definition FailureDomainWithMostMachines (machines : list Machine.t) : option string :=
  let domains := Machine.FailureDomain <$> machines in
  foldl (λ best fd, if (membersIn machines best <? membersIn machines fd)%nat then fd else best)
        (default None (head domains)) domains.

Definition pickError : string := "failed to pick control plane Machine to mark for deletion".

(** Modelled from the spec: [MachineInFailureDomainWithMostMachines] is
    declared outside scale.go.  "Within the chosen set, pick a member
    belonging to the failure domain holding the most members from that set
    ...; fail with an explicit error if the resulting set is empty". *)
Definition MachineInFailureDomainWithMostMachines (c : ControlPlane.t)
    (machines : list Machine.t) : option Machine.t * option error :=
  let fd := FailureDomainWithMostMachines machines in
  let machinesInFailureDomain := List.filter (InFailureDomain fd) machines in
  match head machinesInFailureDomain with
  | None => (None, Some (Errorf pickError []))
  | Some machineToMark => (Some machineToMark, None)
  end.

(** Modelled from the spec: the initial and the join bootstrap payloads are
    built outside scale.go, from the agent configuration of the control
    plane. *)
Definition InitialControlPlaneConfig (c : ControlPlane.t) : option RKE2AgentConfig :=
  Some (RKE2ControlPlane.AgentConfig (ControlPlane.RCP c)).

Definition JoinControlPlaneConfig (c : ControlPlane.t) : option RKE2AgentConfig :=
  Some (RKE2ControlPlane.AgentConfig (ControlPlane.RCP c)).

(** Modelled from the spec: "pick the next failure domain for scale-up
    (least-populated domain, deterministic tie-break)": of the cluster's
    domains, the first of those with the fewest members of the view; [nil]
    when the cluster has no failure domain. *)
Definition NextFailureDomainForScaleUp (c : ControlPlane.t) : option string :=
  let machines := ControlPlane.Machines c in
  match Cluster.FailureDomains (ControlPlane.Cluster c) with
  | [] => None
  | first :: domains =>
      Some (foldl (λ best fd,
                     if (membersIn machines (Some fd) <? membersIn machines (Some best))%nat
                     then fd else best)
                  first domains)
  end.

(** Modelled from the spec: [machinefilters.OwnedMachines] is declared
    outside scale.go; an owned member carries an "owning reference back to" the
    control plane, as its controller. *)
Definition OwnedMachines (rcp : RKE2ControlPlane.t) (m : Machine.t) : bool :=
  existsb (λ r, bool_decide (OwnerReference.Controller r = Some true
                             ∧ OwnerReference.Kind r = "RKE2ControlPlane"
                             ∧ OwnerReference.UID r = RKE2ControlPlane.UID rcp))
          (Machine.OwnerReferences m).

Definition machinesOf (store : gmap ObjectKey Object) : list Machine.t :=
  omap (λ kv, match kv.2 with MachineObject m => Some m | _ => None end)
       (map_to_list store).

(** Modelled from the spec: [managementClusterUncached.GetMachinesForCluster]
    is declared outside scale.go; it is the "uncached re-read of owned
    members": the members stored for the cluster that pass the filter, read
    from the store itself. *)
Definition GetMachinesForCluster (cluster : Cluster.t) (filter : Machine.t → bool)
  : M (list Machine.t * option error) :=
  f ← request CallList;
  match f with
  | Some f => mret ([], Some (StatusError (reasonOf f)))
  | None =>
      λ w, (Returned
              (List.filter
                 (λ m, bool_decide (Machine.Namespace m = Cluster.Namespace cluster
                                    ∧ Machine.Labels m !! ClusterNameLabel
                                      = Some (Cluster.Name cluster))
                       && filter m)
                 (machinesOf (objects w)), None), w)
  end.

(** ** External collaborators of the provisioner *)

(** [strings.TrimSuffix]. *)
Definition TrimSuffix (s suffix : string) : string :=
  let n := String.length s - String.length suffix in
  if (String.length suffix <=? String.length s)%nat && String.eqb (substring n (String.length suffix) s) suffix
  then substring 0 n s else s.

Module CloneTemplateInput.
(** [external.CloneTemplateInput], without the client. *)
Record t := {
  TemplateRef : ObjectReference.t;
  Namespace : string;
  OwnerRef : OwnerReference.t;
  ClusterName : string;
  Labels : gmap string string;
}.
End CloneTemplateInput.

Definition refKey (ref : ObjectReference.t) : ObjectKey :=
  (ObjectReference.Kind ref, ObjectReference.Namespace ref, ObjectReference.Name ref).

Definition machineKey (m : Machine.t) : ObjectKey :=
  ("Machine", Machine.Namespace m, Machine.Name m).

(** [external.CloneTemplate], a library of cluster-api: one request to the
    store, which either fails and creates nothing, or stores a clone of the
    template under a generated name and returns the reference to it. *)
Definition CloneTemplate (input : CloneTemplateInput.t)
  : M (option ObjectReference.t * option error) :=
  let template := CloneTemplateInput.TemplateRef input in
  f ← request (CallClone template);
  match f with
  | Some f => mret (None, Some (StatusError (reasonOf f)))
  | None =>
      name ← GenerateName (ObjectReference.Name template ++ "-");
      let ref := {|
        ObjectReference.Kind := TrimSuffix (ObjectReference.Kind template) "Template";
        ObjectReference.Namespace := CloneTemplateInput.Namespace input;
        ObjectReference.Name := name;
        ObjectReference.UID := "";
        ObjectReference.APIVersion := ObjectReference.APIVersion template;
      |} in
      old ← getObject (refKey ref);
      match old with
      | Some _ => mret (None, Some (StatusError StatusReasonAlreadyExists))
      | None =>
          setObjects (insert (refKey ref) (InfraObject {|
            InfraMachine.Ref := ref;
            InfraMachine.OwnerRef := CloneTemplateInput.OwnerRef input;
            InfraMachine.ClusterName := CloneTemplateInput.ClusterName input;
            InfraMachine.Labels := CloneTemplateInput.Labels input;
          |}));;
          mret (Some ref, None)
      end
  end.

(** [conditions.Get]: the first condition of the given type, [nil] when there
    is none. *)
Definition conditions_Get (obj : Machine.t) (t : string) : option Condition.t :=
  List.find (λ c, String.eqb (Condition.Type_ c) t) (Machine.Conditions obj).

(** [metav1.NewControllerRef]. *)
Definition NewControllerRef (rcp : RKE2ControlPlane.t) (apiVersion kind : string)
  : OwnerReference.t := {|
  OwnerReference.APIVersion := apiVersion;
  OwnerReference.Kind := kind;
  OwnerReference.Name := RKE2ControlPlane.Name rcp;
  OwnerReference.UID := RKE2ControlPlane.UID rcp;
  OwnerReference.Controller := Some true;
|}.

(** ** scale.go: the preflight gate *)

Definition preflightCheckCondition (kind : string) (obj : Machine.t) (condition : string)
  : option error :=
  match conditions_Get obj condition with
  | None =>
      Some (Errorf "%s %s does not have %s condition"
                   [ArgS kind; ArgS (Machine.Name obj); ArgS condition])
  | Some c =>
      if String.eqb (Condition.Status c) ConditionFalse then
        Some (Errorf "%s %s reports %s condition is false (%s, %s)"
                     [ArgS kind; ArgS (Machine.Name obj); ArgS condition;
                      ArgS (Condition.Severity c); ArgS (Condition.Message c)])
      else if String.eqb (Condition.Status c) ConditionUnknown then
        Some (Errorf "%s %s reports %s condition is unknown (%s)"
                     [ArgS kind; ArgS (Machine.Name obj); ArgS condition;
                      ArgS (Condition.Message c)])
      else None
  end.

Definition allMachineHealthConditions : list string := [MachineAgentHealthyCondition].

(** The inner loop over [excludeFor]: [true] is [continue loopmachines].
    Reading [excluded.Name] through a nil pointer panics. *)
Fixpoint excludedLoop (machine : Machine.t) (excludeFor : list (option Machine.t))
  : Outcome bool :=
  match excludeFor with
  | [] => Returned false
  | excluded :: rest =>
      match excluded with
      | None => Panicked nilDereference
      | Some excluded =>
          if String.eqb (Machine.Name machine) (Machine.Name excluded)
          then Returned true
          else excludedLoop machine rest
      end
  end.

(** The inner loop over the health conditions of one machine. *)
Fixpoint conditionsLoop (machine : Machine.t) (conditions : list string)
    (machineErrors : list error) : list error :=
  match conditions with
  | [] => machineErrors
  | condition :: rest =>
      match preflightCheckCondition "machine" machine condition with
      | Some err => conditionsLoop machine rest (machineErrors ++ [err])
      | None => conditionsLoop machine rest machineErrors
      end
  end.

(** The loop labelled [loopmachines]. *)
Fixpoint loopmachines (machines : list Machine.t) (excludeFor : list (option Machine.t))
    (machineErrors : list error) : Outcome (list error) :=
  match machines with
  | [] => Returned machineErrors
  | machine :: rest =>
      match excludedLoop machine excludeFor with
      | Panicked msg => Panicked msg
      | Returned true => loopmachines rest excludeFor machineErrors
      | Returned false =>
          loopmachines rest excludeFor
            (conditionsLoop machine allMachineHealthConditions machineErrors)
      end
  end.

Definition liftOutcome {A} (o : Outcome A) : M A := λ w, (o, w).

Definition preflightChecks (controlPlane : ControlPlane.t)
    (excludeFor : list (option Machine.t)) : M (Result * option error) :=
  if (length (ControlPlane.Machines controlPlane) =? 0)%nat then
    mret (emptyResult, None)
  else if HasDeletingMachine controlPlane then
    mret ({| Requeue := false; RequeueAfter := deleteRequeueAfter |}, None)
  else
    machineErrors ← liftOutcome (loopmachines (ControlPlane.Machines controlPlane) excludeFor []);
    if (0 <? length machineErrors)%nat then
      let aggregatedError := NewAggregate machineErrors in
      Eventf EventTypeWarning "ControlPlaneUnhealthy"
        "Waiting for control plane to pass preflight checks to continue reconciliation: %v"
        [EvV aggregatedError];;
      mret ({| Requeue := false; RequeueAfter := preflightFailedRequeueAfter |}, None)
    else
      mret (emptyResult, None).

(** ** scale.go: the provisioner *)

(** The loop of [cleanupFromGeneration] over the references. *)
Fixpoint cleanupLoop (remoteRefs : list (option ObjectReference.t)) (errs : list error)
  : M (list error) :=
  match remoteRefs with
  | [] => mret errs
  | None :: rest => cleanupLoop rest errs
  | Some ref :: rest =>
      err ← Client_Delete (refKey ref);
      match err with
      | Some err =>
          if negb (IsNotFound err)
          then cleanupLoop rest (errs ++ [Wrap err "failed to cleanup generated resources after error"])
          else cleanupLoop rest errs
      | None => cleanupLoop rest errs
      end
  end.

Definition cleanupFromGeneration (remoteRefs : list (option ObjectReference.t))
  : M (option error) :=
  errs ← cleanupLoop remoteRefs [];
  mret (NewAggregate errs).

Definition generateRKE2Config (rcp : RKE2ControlPlane.t) (cluster : Cluster.t)
    (spec : option RKE2AgentConfig) : M (option ObjectReference.t * option error) :=
  let owner := {|
    OwnerReference.APIVersion := controlplanev1_GroupVersion;
    OwnerReference.Kind := "RKE2ControlPlane";
    OwnerReference.Name := RKE2ControlPlane.Name rcp;
    OwnerReference.UID := RKE2ControlPlane.UID rcp;
    OwnerReference.Controller := None;
  |} in
  name ← GenerateName (RKE2ControlPlane.Name rcp ++ "-");
  agentConfig ← deref spec;
  let bootstrapConfig := {|
    RKE2Config.Name := name;
    RKE2Config.Namespace := RKE2ControlPlane.Namespace rcp;
    RKE2Config.Labels := ControlPlaneLabelsForCluster (Cluster.Name cluster);
    RKE2Config.OwnerReferences := [owner];
    RKE2Config.AgentConfig := agentConfig;
  |} in
  err ← Client_Create ("RKE2Config", RKE2Config.Namespace bootstrapConfig,
                       RKE2Config.Name bootstrapConfig)
                      (ConfigObject bootstrapConfig);
  match err with
  | Some err => mret (None, Some (Wrap err "Failed to create bootstrap configuration"))
  | None =>
      let bootstrapRef := {|
        ObjectReference.APIVersion := bootstrapv1_GroupVersion;
        ObjectReference.Kind := "RKE2Config";
        ObjectReference.Name := RKE2Config.Name bootstrapConfig;
        ObjectReference.Namespace := RKE2Config.Namespace bootstrapConfig;
        ObjectReference.UID := "";
      |} in
      mret (Some bootstrapRef, None)
  end.

Definition generateMachine (rcp : RKE2ControlPlane.t) (cluster : Cluster.t)
    (infraRef bootstrapRef : option ObjectReference.t) (failureDomain : option string)
  : M (option error) :=
  let '(newVersion, err) := rke2ToKubeVersion (RKE2ControlPlane.Version rcp) in
  match err with
  | Some err => mret (Some err)
  | None =>
      name ← GenerateName (RKE2ControlPlane.Name rcp ++ "-");
      infra ← deref infraRef;
      let machine (annotations : gmap string string) := {|
        Machine.Name := name;
        Machine.Namespace := RKE2ControlPlane.Namespace rcp;
        Machine.UID := "";
        Machine.Labels := ControlPlaneLabelsForCluster (Cluster.Name cluster);
        Machine.Annotations := annotations;
        Machine.OwnerReferences :=
          [NewControllerRef rcp controlplanev1_GroupVersion "RKE2ControlPlane"];
        Machine.DeletionTimestamp := None;
        Machine.ClusterName := Cluster.Name cluster;
        Machine.Version := Some newVersion;
        Machine.InfrastructureRef := infra;
        Machine.ConfigRef := bootstrapRef;
        Machine.FailureDomain := failureDomain;
        Machine.NodeDrainTimeout := RKE2ControlPlane.NodeDrainTimeout rcp;
        Machine.Conditions := [];
      |} in
      let '(serverConfig, err) := json_Marshal (RKE2ControlPlane.ServerConfig rcp) in
      match err with
      | Some err => mret (Some (Wrap err "failed to marshal cluster configuration"))
      | None =>
          let machine := machine {[ RKE2ServerConfigurationAnnotation := serverConfig ]} in
          err ← Client_Create (machineKey machine) (MachineObject machine);
          match err with
          | Some err => mret (Some (Wrap err "failed to create machine"))
          | None => mret None
          end
      end
  end.

Definition cloneConfigsAndGenerateMachine (cluster : Cluster.t) (rcp : RKE2ControlPlane.t)
    (bootstrapSpec : option RKE2AgentConfig) (failureDomain : option string)
  : M (option error) :=
  let errs : list error := [] in
  let infraCloneOwner := {|
    OwnerReference.APIVersion := controlplanev1_GroupVersion;
    OwnerReference.Kind := "RKE2ControlPlane";
    OwnerReference.Name := RKE2ControlPlane.Name rcp;
    OwnerReference.UID := RKE2ControlPlane.UID rcp;
    OwnerReference.Controller := None;
  |} in
  '(infraRef, err) ← CloneTemplate {|
    CloneTemplateInput.TemplateRef := RKE2ControlPlane.InfrastructureRef rcp;
    CloneTemplateInput.Namespace := RKE2ControlPlane.Namespace rcp;
    CloneTemplateInput.OwnerRef := infraCloneOwner;
    CloneTemplateInput.ClusterName := Cluster.Name cluster;
    CloneTemplateInput.Labels := ControlPlaneLabelsForCluster (Cluster.Name cluster);
  |};
  match err with
  | Some err => mret (Some (Wrap err "failed to clone infrastructure template"))
  | None =>
      '(bootstrapRef, err) ← generateRKE2Config rcp cluster bootstrapSpec;
      let errs :=
        match err with
        | Some err => (errs ++ [Wrap err "failed to generate bootstrap config"])%list
        | None => errs
        end in
      errs ← (if (length errs =? 0)%nat then
                err ← generateMachine rcp cluster infraRef bootstrapRef failureDomain;
                match err with
                | Some err => mret (errs ++ [Wrap err "failed to create Machine"])%list
                | None => mret errs
                end
              else mret errs);
      if (0 <? length errs)%nat then
        err ← cleanupFromGeneration [infraRef; bootstrapRef];
        let errs :=
          match err with
          | Some err => (errs ++ [Wrap err "failed to cleanup generated resources"])%list
          | None => errs
          end in
        mret (NewAggregate errs)
      else mret None
  end.

(** ** scale.go: initialize, scale up, scale down *)

Definition alreadyInitialized : string :=
  "control plane has already been initialized, found %d owned machine for cluster %s/%s: controller cache or management cluster is misbehaving".

Definition initializeControlPlane (cluster : Cluster.t) (rcp : RKE2ControlPlane.t)
    (controlPlane : ControlPlane.t) : M (Result * option error) :=
  '(ownedMachines, err) ← GetMachinesForCluster cluster (OwnedMachines rcp);
  match err with
  | Some err => mret (emptyResult, Some err)
  | None =>
      if (0 <? length ownedMachines)%nat then
        mret (emptyResult,
              Some (Errorf alreadyInitialized
                           [ArgD (length ownedMachines); ArgS (Cluster.Namespace cluster);
                            ArgS (Cluster.Name cluster)]))
      else
        let bootstrapSpec := InitialControlPlaneConfig controlPlane in
        let fd := NextFailureDomainForScaleUp controlPlane in
        err ← cloneConfigsAndGenerateMachine cluster rcp bootstrapSpec fd;
        match err with
        | Some err =>
            Eventf EventTypeWarning "FailedInitialization"
              "Failed to create initial control plane Machine for cluster %s/%s control plane: %v"
              [EvS (Cluster.Namespace cluster); EvS (Cluster.Name cluster); EvV (Some err)];;
            mret (emptyResult, Some err)
        | None => mret ({| Requeue := true; RequeueAfter := zeroDuration |}, None)
        end
  end.

Definition scaleUpControlPlane (cluster : Cluster.t) (rcp : RKE2ControlPlane.t)
    (controlPlane : ControlPlane.t) : M (Result * option error) :=
  '(result, err) ← preflightChecks controlPlane [];
  if bool_decide (is_Some err) || negb (IsZero result) then mret (result, err)
  else
    let bootstrapSpec := JoinControlPlaneConfig controlPlane in
    let fd := NextFailureDomainForScaleUp controlPlane in
    err ← cloneConfigsAndGenerateMachine cluster rcp bootstrapSpec fd;
    match err with
    | Some err =>
        Eventf EventTypeWarning "FailedScaleUp"
          "Failed to create additional control plane Machine for cluster %s/%s control plane: %v"
          [EvS (Cluster.Namespace cluster); EvS (Cluster.Name cluster); EvV (Some err)];;
        mret (emptyResult, Some err)
    | None => mret ({| Requeue := true; RequeueAfter := zeroDuration |}, None)
    end.

Section ScaleDown.

(** The method [controlPlane.MachineInFailureDomainWithMostMachines], which
    scale.go calls and does not declare.  Its result is a pointer and an
    error; the definitions below hold for whatever it returns. *)
Variable machineInFailureDomainWithMostMachines :
  ControlPlane.t → list Machine.t → option Machine.t * option error.

Definition selectMachineForScaleDown (controlPlane : ControlPlane.t)
    (outdatedMachines : list Machine.t) : option Machine.t * option error :=
  let machines := ControlPlane.Machines controlPlane in
  let machines :=
    if (0 <? length (MachineWithDeleteAnnotation controlPlane outdatedMachines))%nat then
      MachineWithDeleteAnnotation controlPlane outdatedMachines
    else if (0 <? length (MachineWithDeleteAnnotation controlPlane machines))%nat then
      MachineWithDeleteAnnotation controlPlane machines
    else if (0 <? length outdatedMachines)%nat then
      outdatedMachines
    else machines in
  machineInFailureDomainWithMostMachines controlPlane machines.

Definition scaleDownControlPlane (cluster : Cluster.t) (rcp : RKE2ControlPlane.t)
    (controlPlane : ControlPlane.t) (outdatedMachines : list Machine.t)
  : M (Result * option error) :=
  let '(machineToDelete, err) := selectMachineForScaleDown controlPlane outdatedMachines in
  match err with
  | Some err => mret (emptyResult, Some (Wrap err "failed to select machine for scale down"))
  | None =>
      '(result, err) ← preflightChecks controlPlane [machineToDelete];
      if bool_decide (is_Some err) || negb (IsZero result) then mret (result, err)
      else
        match machineToDelete with
        | None =>
            mret (emptyResult,
                  Some (Errorf "failed to pick control plane Machine to delete" []))
        | Some machineToDelete =>
            err ← Client_Delete (machineKey machineToDelete);
            match err with
            | Some err =>
                if negb (IsNotFound err) then
                  Eventf EventTypeWarning "FailedScaleDown"
                    "Failed to delete control plane Machine %s for cluster %s/%s control plane: %v"
                    [EvS (Machine.Name machineToDelete); EvS (Cluster.Namespace cluster);
                     EvS (Cluster.Name cluster); EvV (Some err)];;
                  mret (emptyResult, Some err)
                else mret ({| Requeue := true; RequeueAfter := zeroDuration |}, None)
            | None => mret ({| Requeue := true; RequeueAfter := zeroDuration |}, None)
            end
        end
  end.

End ScaleDown.

(** ** Notions the properties are stated with *)

(** A version string of the shape the expression of [rke2ToKubeVersion]
    accepts: [v], one digit, a dot, two digits, a dot, one digit, [+rke2r] and
    one digit. *)
Definition rke2Version (major minor1 minor2 patch revision : ascii) : string :=
  String "v" (String major (String "." (String minor1 (String minor2 (String "."
    (String patch (String "+" (String "r" (String "k" (String "e" (String "2" (String "r"
    (String revision ""))))))))))))).

Definition kubeVersion (major minor1 minor2 patch : ascii) : string :=
  String major (String "." (String minor1 (String minor2 (String "." (String patch ""))))).

(** The results the scale operations hand back. *)
Definition deletingResult : Result := {| Requeue := false; RequeueAfter := deleteRequeueAfter |}.
Definition unhealthyResult : Result :=
  {| Requeue := false; RequeueAfter := preflightFailedRequeueAfter |}.
Definition requeueResult : Result := {| Requeue := true; RequeueAfter := zeroDuration |}.

(** [m] bears the name of one of the excluded machines. *)
Definition excludedByName (excludeFor : list Machine.t) (m : Machine.t) : bool :=
  existsb (λ e, String.eqb (Machine.Name m) (Machine.Name e)) excludeFor.

(** The condition is absent from the machine, or is there with status
    [False] or [Unknown]. *)
Definition unhealthy (m : Machine.t) (condition : string) : Prop :=
  match conditions_Get m condition with
  | None => True
  | Some c => Condition.Status c = ConditionFalse ∨ Condition.Status c = ConditionUnknown
  end.

(** The object a preflight error is about: the second argument of its
    format. *)
Definition errorObject (err : error) : option string :=
  match err with
  | Errorf _ (_ :: ArgS name :: _) => Some name
  | _ => None
  end.

(** The errors the health phase collects, said directly: the failed checks of
    the members that do not bear an excluded name, in the order of the
    view. *)
Definition blockingErrors (excludeFor : list Machine.t) (machines : list Machine.t)
  : list error :=
  flat_map (λ m, omap (preflightCheckCondition "machine" m) allMachineHealthConditions)
           (List.filter (λ m, negb (excludedByName excludeFor m)) machines).

(** The first non-empty list of a sequence of candidates, the empty list when
    there is none. *)
Fixpoint firstNonEmpty {A} (candidates : list (list A)) : list A :=
  match candidates with
  | [] => []
  | [] :: rest => firstNonEmpty rest
  | (x :: l) :: _ => x :: l
  end.

(** The candidate pool of a scale down, in the words of the spec: "first
    non-empty result wins" among the outdated members with the
    delete-requested annotation, any members with it, all outdated members,
    all current members. *)
Definition candidatePool (c : ControlPlane.t) (outdatedMachines : list Machine.t)
  : list Machine.t :=
  firstNonEmpty
    [ List.filter (HasAnnotationKey DeleteMachineAnnotation) outdatedMachines;
      List.filter (HasAnnotationKey DeleteMachineAnnotation) (ControlPlane.Machines c);
      outdatedMachines;
      ControlPlane.Machines c ].

(** An entry of the aggregate [cleanupFromGeneration] returns: a failed
    deletion, which was not a "not found". *)
Definition cleanupFailure (d : error) : Prop :=
  ∃ e, d = Wrap e "failed to cleanup generated resources after error" ∧ IsNotFound e = false.

(** What a rollback from [w] leaves in [w'], given the keys [created] of the
    children that were created and the part [cleanup] of the returned
    aggregate that comes after the creation failure.  Either no deletion
    failed, [cleanup] is empty and the store holds what it held before the
    provisioning; or [cleanup] is the wrapped aggregate of the failed
    deletions, and what the store holds beyond what it held before is one of
    the created children, never a machine. *)
Definition rolledBack (w w' : World) (created : list ObjectKey) (cleanup : list error)
  : Prop :=
  (cleanup = [] ∧ objects w' = objects w)
  ∨ (∃ ds, ds ≠ [] ∧ Forall cleanupFailure ds
           ∧ cleanup = [Wrap (Aggregate ds) "failed to cleanup generated resources"]
           ∧ ∀ key o, objects w' !! key = Some o →
                      objects w !! key = Some o
                      ∨ (key ∈ created ∧ ∀ m, o ≠ MachineObject m)).

Definition configKey (c : RKE2Config.t) : ObjectKey :=
  ("RKE2Config", RKE2Config.Namespace c, RKE2Config.Name c).

(** A computation that records no event. *)
Definition silent {A} (m : M A) : Prop := ∀ w, events (m w).2 = events w.

(** A computation that sends nothing to the store and leaves it as it is. *)
Definition storeFree {A} (m : M A) : Prop :=
  ∀ w, objects (m w).2 = objects w ∧ calls (m w).2 = calls w
       ∧ faults (m w).2 = faults w ∧ rand (m w).2 = rand w.

(** A warning event. *)
Definition warningEvent (reason messageFmt : string) (args : list EventArg) : Event :=
  {| eventtype := EventTypeWarning; reason := reason; messageFmt := messageFmt;
     messageArgs := args |}.

(** [w'] holds no machine that [w] does not hold. *)
Definition noNewMachine (w w' : World) : Prop :=
  ∀ key m, objects w' !! key = Some (MachineObject m) →
           objects w !! key = Some (MachineObject m).

(** ** Sample inputs *)

Definition emptyWorld : World :=
  {| objects := ∅; calls := []; events := []; faults := []; rand := [] |}.

Definition sampleTemplate : ObjectReference.t := {|
  ObjectReference.Kind := "VSphereMachineTemplate";
  ObjectReference.Namespace := "default";
  ObjectReference.Name := "cp-template";
  ObjectReference.UID := "";
  ObjectReference.APIVersion := "infrastructure.cluster.x-k8s.io/v1beta1";
|}.

Definition sampleRCP : RKE2ControlPlane.t := {|
  RKE2ControlPlane.Name := "rke2-control-plane";
  RKE2ControlPlane.Namespace := "default";
  RKE2ControlPlane.UID := "rcp-uid";
  RKE2ControlPlane.Version := "v1.23.4+rke2r1";
  RKE2ControlPlane.InfrastructureRef := sampleTemplate;
  RKE2ControlPlane.AgentConfig := "agent";
  RKE2ControlPlane.ServerConfig := ServerConfig "{}";
  RKE2ControlPlane.NodeDrainTimeout := None;
|}.

Definition sampleCluster : Cluster.t := {|
  Cluster.Name := "c1";
  Cluster.Namespace := "default";
  Cluster.FailureDomains := [];
|}.

Definition agentCondition (status : string) : Condition.t := {|
  Condition.Type_ := MachineAgentHealthyCondition;
  Condition.Status := status;
  Condition.Severity := "";
  Condition.Message := "";
|}.

Definition sampleMachine (name namespace uid : string) (deletion : option nat)
    (annotations : gmap string string) (fd : option string)
    (conditions : list Condition.t) : Machine.t := {|
  Machine.Name := name;
  Machine.Namespace := namespace;
  Machine.UID := uid;
  Machine.Labels := ControlPlaneLabelsForCluster "c1";
  Machine.Annotations := annotations;
  Machine.OwnerReferences :=
    [NewControllerRef sampleRCP controlplanev1_GroupVersion "RKE2ControlPlane"];
  Machine.DeletionTimestamp := deletion;
  Machine.ClusterName := "c1";
  Machine.Version := Some "1.23.4";
  Machine.InfrastructureRef := sampleTemplate;
  Machine.ConfigRef := None;
  Machine.FailureDomain := fd;
  Machine.NodeDrainTimeout := None;
  Machine.Conditions := conditions;
|}.

Definition healthyMachine (name : string) : Machine.t :=
  sampleMachine name "default" name None ∅ None [agentCondition ConditionTrue].

Definition unhealthyMachine (name : string) : Machine.t :=
  sampleMachine name "default" name None ∅ None [agentCondition ConditionFalse].

Definition deletingMachine (name : string) : Machine.t :=
  sampleMachine name "default" name (Some 1) ∅ None [agentCondition ConditionTrue].

(** An empty store that serves the clone, refuses the creation of the
    bootstrap configuration and then times out on the deletion of the clone. *)
Definition cleanupFailureWorld : World := {|
  objects := ∅;
  calls := [];
  events := [];
  faults := [None; Some FaultForbidden; Some FaultTimeout];
  rand := ["x1"; "x2"; "x3"];
|}.

(** An empty store that serves the clone and refuses the creation of the
    bootstrap configuration. *)
Definition configFailureWorld : World := {|
  objects := ∅;
  calls := [];
  events := [];
  faults := [None; Some FaultForbidden];
  rand := ["x1"; "x2"; "x3"];
|}.

(** An empty store that serves every request. *)
Definition servingWorld : World := {|
  objects := ∅;
  calls := [];
  events := [];
  faults := [];
  rand := ["x1"; "x2"; "x3"];
|}.

Definition viewOf (machines : list Machine.t) : ControlPlane.t := {|
  ControlPlane.RCP := sampleRCP;
  ControlPlane.Cluster := sampleCluster;
  ControlPlane.Machines := machines;
|}.

(* ===================================================================== *)
(** * Properties *)
(* ===================================================================== *)

Open Scope list_scope.
Open Scope nat_scope.

(** ** The version translator *)

Example rke2ToKubeVersion_embedded :
  rke2ToKubeVersion "rke2 v1.23.4+rke2r12, v1.24.9+rke2r2" = ("rke2 1.23.42, 1.24.9", None).
Proof. reflexivity. Qed.

Lemma replaceAllFrom_no_match (s : string) :
  MatchString regexStr s = false → replaceAllFrom regexStr 0 s = s.
Proof.
  induction s as [|c s IH]; intros Hno; [reflexivity|].
  cbn [MatchString] in Hno. cbn [replaceAllFrom].
  destruct (matchHere regexStr (String c s)) as [[g rest]|]; [discriminate|].
  f_equal. apply IH, Hno.
Qed.

(** C1, as the code has it: a version string [v<d>.<dd>.<d>+rke2r<d>] (one
    digit for the major and the patch number and for the revision, two for the
    minor number, the suffix [rke2]) is translated to [<d>.<dd>.<d>], without
    the leading [v], and with no error. *)
Theorem rke2ToKubeVersion_drops_v_and_suffix (major minor1 minor2 patch revision : ascii) :
  isDigit major = true → isDigit minor1 = true → isDigit minor2 = true →
  isDigit patch = true → isDigit revision = true →
  rke2ToKubeVersion (rke2Version major minor1 minor2 patch revision)
  = (kubeVersion major minor1 minor2 patch, None).
Proof.
  intros Ha Hb Hc Hd He.
  unfold rke2ToKubeVersion, ReplaceAll, rke2Version, kubeVersion.
  cbn [replaceAllFrom].
  unfold matchHere. cbn -[isDigit].
  rewrite Ha; cbn -[isDigit]. rewrite Hb; cbn -[isDigit]. rewrite Hc; cbn -[isDigit].
  rewrite Hd; cbn -[isDigit]. rewrite He; cbn -[isDigit].
  reflexivity.
Qed.

Lemma rke2ToKubeVersion_drops_v_and_suffix_witness :
  rke2ToKubeVersion "v1.23.4+rke2r1" = ("1.23.4", None).
Proof.
  exact (rke2ToKubeVersion_drops_v_and_suffix "1" "2" "3" "4" "1"
           eq_refl eq_refl eq_refl eq_refl eq_refl).
Defined.

(** C1 as stated fails: the leading [v] is outside the capture group and is
    dropped; a two-digit patch number or another distribution suffix is not
    matched and the string comes back as it was. *)
Lemma rke2ToKubeVersion_keeps_v_counterexample :
  rke2ToKubeVersion "v1.23.4+rke2r1" ≠ ("v1.23.4", None)
  ∧ rke2ToKubeVersion "v1.23.10+rke2r1" ≠ ("v1.23.10", None)
  ∧ rke2ToKubeVersion "v1.23.4+k3sr1" ≠ ("v1.23.4", None).
Proof. repeat split; vm_compute; discriminate. Qed.

(** C8: a string in which the expression matches nowhere is returned as it
    is, with no error. *)
Theorem rke2ToKubeVersion_unmatched_unchanged (s : string) :
  MatchString regexStr s = false → rke2ToKubeVersion s = (s, None).
Proof.
  intros Hno. unfold rke2ToKubeVersion, ReplaceAll.
  by rewrite replaceAllFrom_no_match.
Qed.

Lemma rke2ToKubeVersion_unmatched_unchanged_witness :
  rke2ToKubeVersion "v1.23.10+rke2r1" = ("v1.23.10+rke2r1", None).
Proof.
  exact (rke2ToKubeVersion_unmatched_unchanged "v1.23.10+rke2r1" eq_refl).
Defined.

(** ** The preflight gate *)

Lemma excludedLoop_Some (m : Machine.t) (excludeFor : list Machine.t) :
  excludedLoop m (Some <$> excludeFor) = Returned (excludedByName excludeFor m).
Proof.
  induction excludeFor as [|e excl IH]; cbn; [reflexivity|].
  destruct (String.eqb (Machine.Name m) (Machine.Name e)); [reflexivity|apply IH].
Qed.

Lemma conditionsLoop_app (m : Machine.t) (conditions : list string) (acc : list error) :
  conditionsLoop m conditions acc
  = acc ++ omap (preflightCheckCondition "machine" m) conditions.
Proof.
  revert acc. induction conditions as [|c cs IH]; intros acc; cbn [conditionsLoop omap list_omap].
  - by rewrite app_nil_r.
  - destruct (preflightCheckCondition "machine" m c) as [err|]; rewrite IH.
    + by rewrite <- app_assoc.
    + reflexivity.
Qed.

Lemma loopmachines_Some (machines excludeFor : list Machine.t) (acc : list error) :
  loopmachines machines (Some <$> excludeFor) acc
  = Returned (acc ++ blockingErrors excludeFor machines).
Proof.
  unfold blockingErrors. revert acc.
  induction machines as [|m ms IH]; intros acc; cbn [loopmachines List.filter flat_map].
  - by rewrite app_nil_r.
  - rewrite excludedLoop_Some.
    destruct (excludedByName excludeFor m); cbn [negb flat_map].
    + apply IH.
    + rewrite IH, conditionsLoop_app. by rewrite <- app_assoc.
Qed.

Lemma preflightCheckCondition_unhealthy (kind : string) (m : Machine.t) (condition : string) :
  is_Some (preflightCheckCondition kind m condition) ↔ unhealthy m condition.
Proof.
  unfold preflightCheckCondition, unhealthy.
  destruct (conditions_Get m condition) as [c|]; [|split; eauto].
  destruct (String.eqb_spec (Condition.Status c) ConditionFalse) as [HF|HF].
  { split; eauto. }
  destruct (String.eqb_spec (Condition.Status c) ConditionUnknown) as [HU|HU].
  { split; eauto. }
  split; [intros [? ?]; discriminate|intros [?|?]; contradiction].
Qed.

Lemma preflightCheckCondition_object (kind : string) (m : Machine.t) (condition : string)
    (err : error) :
  preflightCheckCondition kind m condition = Some err →
  errorObject err = Some (Machine.Name m).
Proof.
  unfold preflightCheckCondition.
  destruct (conditions_Get m condition) as [c|]; [|by intros [= <-]].
  destruct (String.eqb _ ConditionFalse); [by intros [= <-]|].
  destruct (String.eqb _ ConditionUnknown); [by intros [= <-]|discriminate].
Qed.

Lemma excludedByName_false (excludeFor : list Machine.t) (m e : Machine.t) :
  excludedByName excludeFor m = false → e ∈ excludeFor → Machine.Name m ≠ Machine.Name e.
Proof.
  unfold excludedByName. intros Hex Hin Heq.
  assert (existsb (λ e, String.eqb (Machine.Name m) (Machine.Name e)) excludeFor = true) as Ht.
  { apply existsb_exists. exists e. split; [by apply list_elem_of_In|].
    by apply String.eqb_eq. }
  congruence.
Qed.

Lemma blockingErrors_object (excludeFor machines : list Machine.t) (err : error) :
  err ∈ blockingErrors excludeFor machines →
  ∃ m, m ∈ machines ∧ excludedByName excludeFor m = false
       ∧ errorObject err = Some (Machine.Name m).
Proof.
  unfold blockingErrors. intros Hin.
  apply list_elem_of_In, in_flat_map in Hin as (m & Hm & Herr).
  apply filter_In in Hm as [Hm Hex].
  apply list_elem_of_In, list_elem_of_omap in Herr as (c & _ & Hc).
  exists m. split; [by apply list_elem_of_In|]. split.
  - by destruct (excludedByName excludeFor m).
  - by eapply preflightCheckCondition_object.
Qed.

Lemma HasDeletingMachine_true (c : ControlPlane.t) :
  HasDeletingMachine c = true
  ↔ ∃ m, m ∈ ControlPlane.Machines c ∧ is_Some (Machine.DeletionTimestamp m).
Proof.
  unfold HasDeletingMachine. rewrite bool_decide_eq_true.
  induction (ControlPlane.Machines c) as [|m ms IH]; cbn [List.filter].
  - split; [cbn; lia|]. intros (m & Hm & _). by apply elem_of_nil in Hm.
  - unfold HasDeletionTimestamp at 1. case_bool_decide as Hd.
    + split; [|cbn; lia]. intros _. exists m. split; [left|done].
    + rewrite IH. split.
      * intros (m' & Hm' & Hd'). exists m'. split; [by right|done].
      * intros (m' & Hm' & Hd'). apply elem_of_cons in Hm' as [->|Hm']; [done|eauto].
Qed.

(** What [preflightChecks] does once the view is not empty and holds no
    deleting machine. *)
Lemma preflightChecks_health (c : ControlPlane.t) (excludeFor : list (option Machine.t))
    (w : World) :
  ControlPlane.Machines c ≠ [] → HasDeletingMachine c = false →
  preflightChecks c excludeFor w
  = match loopmachines (ControlPlane.Machines c) excludeFor [] with
    | Panicked msg => (Panicked msg, w)
    | Returned [] => (Returned (emptyResult, None), w)
    | Returned (err :: errs) =>
        (Returned (unhealthyResult, None),
         (Eventf EventTypeWarning "ControlPlaneUnhealthy"
            "Waiting for control plane to pass preflight checks to continue reconciliation: %v"
            [EvV (Some (Aggregate (err :: errs)))] w).2)
    end.
Proof.
  intros Hne Hdel. unfold preflightChecks. rewrite Hdel.
  destruct (ControlPlane.Machines c) as [|m ms] eqn:Hms; [done|].
  cbn [length Nat.eqb]. unfold mbind, M_bind, liftOutcome.
  destruct (loopmachines (m :: ms) excludeFor []) as [[|err errs]|msg]; reflexivity.
Qed.

(** C4, as the code has it: the deletion-marker rule of the preflight gate
    does not look at the exclusion set.  Whatever is excluded, the gate
    answers with the [deleteRequeueAfter] backoff exactly when the view is not
    empty and some member of it, excluded or not, carries a deletion
    marker. *)
Theorem preflight_deletion_rule_ignores_exclusion (c : ControlPlane.t)
    (excludeFor : list (option Machine.t)) (w : World) :
  (preflightChecks c excludeFor w).1 = Returned (deletingResult, None)
  ↔ ControlPlane.Machines c ≠ []
    ∧ ∃ m, m ∈ ControlPlane.Machines c ∧ is_Some (Machine.DeletionTimestamp m).
Proof.
  rewrite <- HasDeletingMachine_true.
  destruct (ControlPlane.Machines c) as [|m ms] eqn:Hms.
  { unfold preflightChecks. rewrite Hms. cbn. split; [discriminate|by intros [? _]]. }
  destruct (HasDeletingMachine c) eqn:Hdel.
  { unfold preflightChecks. rewrite Hms, Hdel. cbn. by split. }
  rewrite preflightChecks_health; [|by rewrite Hms|done]. rewrite Hms.
  destruct (loopmachines (m :: ms) excludeFor []) as [[|err errs]|msg]; cbn;
    split; try discriminate; by intros [_ ?].
Qed.

(** C4 as stated fails: the only member of the view carries a deletion marker
    and is the excluded one, so no member outside the exclusion set carries a
    marker, and still the gate answers with the [deleteRequeueAfter]
    backoff. *)
Lemma preflight_deletion_rule_counterexample :
  (preflightChecks (viewOf [deletingMachine "m1"]) [Some (deletingMachine "m1")] emptyWorld).1
  = Returned (deletingResult, None)
  ∧ ¬ ∃ m, m ∈ ControlPlane.Machines (viewOf [deletingMachine "m1"])
           ∧ (m ∉ [deletingMachine "m1"])
           ∧ is_Some (Machine.DeletionTimestamp m).
Proof.
  split; [reflexivity|].
  intros (m & Hm & Hout & _). cbn in Hm. contradiction.
Qed.

(** C6: past the deletion rule, the gate checks every member that does not
    bear an excluded name against the condition list and collects an error for
    each condition that is absent, false or unknown; a non-empty collection
    gives the [preflightFailedRequeueAfter] backoff with no error, an empty one
    lets the gate pass; and no collected error is about an excluded
    machine. *)
Theorem preflight_health_phase (c : ControlPlane.t) (excludeFor : list Machine.t) (w : World) :
  ControlPlane.Machines c ≠ [] → HasDeletingMachine c = false →
  loopmachines (ControlPlane.Machines c) (Some <$> excludeFor) []
  = Returned (blockingErrors excludeFor (ControlPlane.Machines c))
  ∧ (∀ m condition,
       is_Some (preflightCheckCondition "machine" m condition) ↔ unhealthy m condition)
  ∧ (preflightChecks c (Some <$> excludeFor) w).1
    = Returned (if decide (blockingErrors excludeFor (ControlPlane.Machines c) = [])
                then emptyResult else unhealthyResult, None)
  ∧ (∀ err e, err ∈ blockingErrors excludeFor (ControlPlane.Machines c) →
              e ∈ excludeFor → errorObject err ≠ Some (Machine.Name e)).
Proof.
  intros Hne Hdel. split; [apply loopmachines_Some|].
  split; [intros; apply preflightCheckCondition_unhealthy|]. split.
  - rewrite preflightChecks_health by done. rewrite loopmachines_Some. cbn [app].
    destruct (blockingErrors excludeFor (ControlPlane.Machines c)); reflexivity.
  - intros err e Herr He Hobj.
    apply blockingErrors_object in Herr as (m & _ & Hex & Hm).
    eapply excludedByName_false; [exact Hex|exact He|congruence].
Qed.

Lemma preflight_health_phase_witness :
  (preflightChecks (viewOf [unhealthyMachine "m1"; unhealthyMachine "m2"])
                   (Some <$> [unhealthyMachine "m1"]) emptyWorld).1
  = Returned (unhealthyResult, None)
  ∧ blockingErrors [unhealthyMachine "m1"] [unhealthyMachine "m1"; unhealthyMachine "m2"]
    = [Errorf "%s %s reports %s condition is false (%s, %s)"
         [ArgS "machine"; ArgS "m2"; ArgS "AgentHealthy"; ArgS ""; ArgS ""]].
Proof.
  split; [|reflexivity].
  refine (proj1 (proj2 (proj2 (preflight_health_phase
            (viewOf [unhealthyMachine "m1"; unhealthyMachine "m2"])
            [unhealthyMachine "m1"] emptyWorld _ _)))); [discriminate|reflexivity].
Defined.

(** C10: the exclusion is by name alone.  A member of the view whose name is
    the name of an excluded machine is skipped by the health loop, whatever
    its namespace, UID or other fields: the loop returns, it collects what it
    collects on the view without that member, and nothing it collects is about
    that name. *)
Theorem preflight_exclusion_by_name (before after excludeFor : list Machine.t)
    (m e : Machine.t) :
  e ∈ excludeFor → Machine.Name m = Machine.Name e →
  ∃ errs,
    loopmachines (before ++ m :: after) (Some <$> excludeFor) [] = Returned errs
    ∧ loopmachines (before ++ after) (Some <$> excludeFor) [] = Returned errs
    ∧ ∀ err, err ∈ errs → errorObject err ≠ Some (Machine.Name m).
Proof.
  intros He Hname. exists (blockingErrors excludeFor (before ++ after)).
  assert (excludedByName excludeFor m = true) as Hex.
  { apply existsb_exists. exists e. split; [by apply list_elem_of_In|].
    by apply String.eqb_eq. }
  rewrite !loopmachines_Some. cbn [app]. split; [|split; [done|]].
  - unfold blockingErrors. rewrite !List.filter_app. cbn [List.filter]. by rewrite Hex.
  - intros err Herr Hobj.
    apply blockingErrors_object in Herr as (m' & _ & Hex' & Hm').
    eapply excludedByName_false; [exact Hex'|exact He|congruence].
Qed.

Lemma preflight_exclusion_by_name_witness :
  ∃ errs,
    loopmachines ([healthyMachine "m0"]
                  ++ sampleMachine "m1" "other-namespace" "other-uid" None ∅ None [] :: [])
                 (Some <$> [healthyMachine "m1"]) [] = Returned errs
    ∧ loopmachines ([healthyMachine "m0"] ++ []) (Some <$> [healthyMachine "m1"]) []
      = Returned errs
    ∧ ∀ err, err ∈ errs → errorObject err ≠ Some "m1".
Proof.
  apply (preflight_exclusion_by_name [healthyMachine "m0"] [] [healthyMachine "m1"]
           (sampleMachine "m1" "other-namespace" "other-uid" None ∅ None [])
           (healthyMachine "m1")).
  - apply list_elem_of_In. left. reflexivity.
  - reflexivity.
Defined.

(** ** Scale down *)

(** A gate that passes leaves the world as it was. *)
Lemma preflightChecks_pass_world (c : ControlPlane.t) (excludeFor : list (option Machine.t))
    (w : World) :
  (preflightChecks c excludeFor w).1 = Returned (emptyResult, None) →
  preflightChecks c excludeFor w = (Returned (emptyResult, None), w).
Proof.
  destruct (ControlPlane.Machines c) as [|m ms] eqn:Hms.
  { unfold preflightChecks. rewrite Hms. reflexivity. }
  destruct (HasDeletingMachine c) eqn:Hdel.
  { unfold preflightChecks. rewrite Hms, Hdel. cbn. discriminate. }
  rewrite preflightChecks_health; [|by rewrite Hms|done].
  destruct (loopmachines _ excludeFor []) as [[|err errs]|msg]; cbn;
    [reflexivity|discriminate|discriminate].
Qed.

(** A request to delete always comes back, with [nil] or an error. *)
Lemma Client_Delete_returns (key : ObjectKey) (w : World) :
  ∃ err w', Client_Delete key w = (Returned err, w').
Proof.
  unfold Client_Delete, mbind, M_bind, request, getObject, setObjects, mret, M_ret. cbn.
  destruct (mjoin (head (faults w))) as [f|]; [eauto|]. cbn.
  destruct (objects w !! key); cbn; eauto.
Qed.

(** C9: the nil check of [scaleDownControlPlane] comes after the preflight
    gate.  On a view with at least one member and no deleting one the gate
    reads the name of its exclusion entry, so a selection that returns a nil
    machine with a nil error ends in a nil-pointer panic, before the nil check
    and before any request to the store. *)
Theorem scaleDown_nil_candidate_panics
    (pick : ControlPlane.t → list Machine.t → option Machine.t * option error)
    (cluster : Cluster.t) (rcp : RKE2ControlPlane.t) (c : ControlPlane.t)
    (outdatedMachines : list Machine.t) (w : World) :
  selectMachineForScaleDown pick c outdatedMachines = (None, None) →
  ControlPlane.Machines c ≠ [] → HasDeletingMachine c = false →
  preflightChecks c [None] w = (Panicked nilDereference, w)
  ∧ scaleDownControlPlane pick cluster rcp c outdatedMachines w
    = (Panicked nilDereference, w).
Proof.
  intros Hsel Hne Hdel.
  assert (preflightChecks c [None] w = (Panicked nilDereference, w)) as Hgate.
  { rewrite preflightChecks_health by done.
    destruct (ControlPlane.Machines c) as [|m ms]; [done|reflexivity]. }
  split; [exact Hgate|].
  unfold scaleDownControlPlane. rewrite Hsel.
  unfold mbind, M_bind. by rewrite Hgate.
Qed.

Lemma scaleDown_nil_candidate_panics_witness :
  preflightChecks (viewOf [healthyMachine "m1"]) [None] emptyWorld
  = (Panicked nilDereference, emptyWorld)
  ∧ scaleDownControlPlane (λ _ _, (None, None)) sampleCluster sampleRCP
      (viewOf [healthyMachine "m1"]) [] emptyWorld
    = (Panicked nilDereference, emptyWorld).
Proof.
  apply (scaleDown_nil_candidate_panics (λ _ _, (None, None)) sampleCluster sampleRCP
           (viewOf [healthyMachine "m1"]) [] emptyWorld);
    [reflexivity|discriminate|reflexivity].
Defined.

(** C7: when a machine was selected and the gate passed, the machine is
    deleted.  The deletion always comes back; on [nil] and on "not found" the
    operation returns a requeue with a nil error, on any other error it
    returns that error (and no requeue), the store being left as the deletion
    left it. *)
Theorem scaleDown_delete_outcome
    (pick : ControlPlane.t → list Machine.t → option Machine.t * option error)
    (cluster : Cluster.t) (rcp : RKE2ControlPlane.t) (c : ControlPlane.t)
    (outdatedMachines : list Machine.t) (machineToDelete : Machine.t) (w : World) :
  selectMachineForScaleDown pick c outdatedMachines = (Some machineToDelete, None) →
  (preflightChecks c [Some machineToDelete] w).1 = Returned (emptyResult, None) →
  ∃ err w',
    Client_Delete (machineKey machineToDelete) w = (Returned err, w')
    ∧ match err with
      | None =>
          scaleDownControlPlane pick cluster rcp c outdatedMachines w
          = (Returned (requeueResult, None), w')
      | Some e =>
          if IsNotFound e then
            scaleDownControlPlane pick cluster rcp c outdatedMachines w
            = (Returned (requeueResult, None), w')
          else
            (scaleDownControlPlane pick cluster rcp c outdatedMachines w).1
            = Returned (emptyResult, Some e)
            ∧ objects (scaleDownControlPlane pick cluster rcp c outdatedMachines w).2
              = objects w'
            ∧ calls (scaleDownControlPlane pick cluster rcp c outdatedMachines w).2
              = calls w'
      end.
Proof.
  intros Hsel Hgate. apply preflightChecks_pass_world in Hgate.
  destruct (Client_Delete_returns (machineKey machineToDelete) w) as (err & w' & Hdel).
  exists err, w'. split; [exact Hdel|].
  unfold scaleDownControlPlane. rewrite Hsel.
  unfold mbind, M_bind. rewrite Hgate. cbn [bool_decide orb negb IsZero].
  rewrite bool_decide_eq_false_2 by (intros [? ?]; discriminate). cbn.
  rewrite Hdel. destruct err as [e|]; [|reflexivity].
  destruct (IsNotFound e); cbn; [reflexivity|done].
Qed.

Lemma scaleDown_delete_outcome_witness :
  ∃ err w',
    Client_Delete (machineKey (healthyMachine "m1")) emptyWorld = (Returned err, w')
    ∧ match err with
      | None =>
          scaleDownControlPlane MachineInFailureDomainWithMostMachines sampleCluster sampleRCP
            (viewOf [healthyMachine "m1"; healthyMachine "m2"]) [] emptyWorld
          = (Returned (requeueResult, None), w')
      | Some e =>
          if IsNotFound e then
            scaleDownControlPlane MachineInFailureDomainWithMostMachines sampleCluster
              sampleRCP (viewOf [healthyMachine "m1"; healthyMachine "m2"]) [] emptyWorld
            = (Returned (requeueResult, None), w')
          else
            (scaleDownControlPlane MachineInFailureDomainWithMostMachines sampleCluster
               sampleRCP (viewOf [healthyMachine "m1"; healthyMachine "m2"]) [] emptyWorld).1
            = Returned (emptyResult, Some e)
            ∧ objects (scaleDownControlPlane MachineInFailureDomainWithMostMachines
                         sampleCluster sampleRCP
                         (viewOf [healthyMachine "m1"; healthyMachine "m2"]) [] emptyWorld).2
              = objects w'
            ∧ calls (scaleDownControlPlane MachineInFailureDomainWithMostMachines
                       sampleCluster sampleRCP
                       (viewOf [healthyMachine "m1"; healthyMachine "m2"]) [] emptyWorld).2
              = calls w'
      end.
Proof.
  apply (scaleDown_delete_outcome MachineInFailureDomainWithMostMachines sampleCluster
           sampleRCP (viewOf [healthyMachine "m1"; healthyMachine "m2"]) []
           (healthyMachine "m1") emptyWorld); vm_compute; reflexivity.
Defined.

(** The three answers of the store, on a view of two healthy machines. *)
Example scaleDown_machine_already_gone :
  (scaleDownControlPlane MachineInFailureDomainWithMostMachines sampleCluster sampleRCP
     (viewOf [healthyMachine "m1"; healthyMachine "m2"]) [] emptyWorld).1
  = Returned (requeueResult, None).
Proof. vm_compute. reflexivity. Qed.

Example scaleDown_delete_forbidden :
  (scaleDownControlPlane MachineInFailureDomainWithMostMachines sampleCluster sampleRCP
     (viewOf [healthyMachine "m1"; healthyMachine "m2"]) []
     {| objects := {[ machineKey (healthyMachine "m1") := MachineObject (healthyMachine "m1") ]};
        calls := []; events := []; faults := [Some FaultForbidden]; rand := [] |}).1
  = Returned (emptyResult, Some (StatusError StatusReasonForbidden)).
Proof. vm_compute. reflexivity. Qed.

Example scaleDown_machine_deleted :
  let r := scaleDownControlPlane MachineInFailureDomainWithMostMachines sampleCluster sampleRCP
             (viewOf [healthyMachine "m1"; healthyMachine "m2"]) []
             {| objects := {[ machineKey (healthyMachine "m1")
                              := MachineObject (healthyMachine "m1") ]};
                calls := []; events := []; faults := []; rand := [] |} in
  r.1 = Returned (requeueResult, None)
  ∧ objects r.2 !! machineKey (healthyMachine "m1") = None.
Proof. vm_compute. split; reflexivity. Qed.

(** ** The member selector *)

Section ArgMax.
Context {A : Type} (f : A → nat).

(** Keeping, from the left, an element on which [f] is strictly larger yields
    the start or an element of the list, on which [f] is the largest. *)
Lemma foldl_keepFuller (l : list A) (init : A) :
  let keepFuller := λ best x : A, if (f best <? f x)%nat then x else best in
  (foldl keepFuller init l = init ∨ foldl keepFuller init l ∈ l)
  ∧ (f init ≤ f (foldl keepFuller init l))%nat
  ∧ ∀ x, x ∈ l → (f x ≤ f (foldl keepFuller init l))%nat.
Proof using Type.
  intros keepFuller.
  revert init. induction l as [|y l IH]; intros init; cbn [foldl].
  { split; [by left|]. split; [lia|]. intros x Hx. by apply elem_of_nil in Hx. }
  destruct (IH (keepFuller init y)) as (Hin & Hle & Hall).
  assert ((f init ≤ f (keepFuller init y))%nat ∧ (f y ≤ f (keepFuller init y))%nat
          ∧ (keepFuller init y = init ∨ keepFuller init y = y)) as (Hi & Hy & Hk).
  { unfold keepFuller. destruct (Nat.ltb_spec (f init) (f y)); repeat split; auto; lia. }
  split; [|split].
  - destruct Hin as [->|Hin]; [|right; by right].
    destruct Hk as [->| ->]; [by left|right; by left].
  - lia.
  - intros x [->|Hx]%elem_of_cons; [lia|by apply Hall].
Qed.
End ArgMax.

Lemma FailureDomainWithMostMachines_fullest (machines : list Machine.t) (m : Machine.t) :
  m ∈ machines →
  (membersIn machines (Machine.FailureDomain m)
   ≤ membersIn machines (FailureDomainWithMostMachines machines))%nat.
Proof.
  intros Hm. unfold FailureDomainWithMostMachines.
  apply (foldl_keepFuller (membersIn machines)).
  apply list_elem_of_fmap. by exists m.
Qed.

Lemma FailureDomainWithMostMachines_inhabited (machines : list Machine.t) :
  machines ≠ [] →
  ∃ m, m ∈ machines ∧ Machine.FailureDomain m = FailureDomainWithMostMachines machines.
Proof.
  intros Hne. unfold FailureDomainWithMostMachines.
  destruct machines as [|m0 ms]; [done|].
  destruct (foldl_keepFuller (membersIn (m0 :: ms))
              (Machine.FailureDomain <$> (m0 :: ms))
              (default None (head (Machine.FailureDomain <$> (m0 :: ms)))))
    as ([Hr|Hr] & _ & _).
  - exists m0. split; [by left|]. by rewrite Hr.
  - apply list_elem_of_fmap in Hr as (m & Hfd & Hm). exists m. split; [done|].
    by rewrite Hfd.
Qed.

Lemma selectMachineForScaleDown_pool
    (pick : ControlPlane.t → list Machine.t → option Machine.t * option error)
    (c : ControlPlane.t) (outdatedMachines : list Machine.t) :
  selectMachineForScaleDown pick c outdatedMachines
  = pick c (candidatePool c outdatedMachines).
Proof.
  unfold selectMachineForScaleDown, candidatePool, MachineWithDeleteAnnotation.
  cbn [firstNonEmpty].
  destruct (List.filter _ outdatedMachines); [|reflexivity].
  destruct (List.filter _ (ControlPlane.Machines c)); [|reflexivity].
  destruct outdatedMachines; [|reflexivity].
  destruct (ControlPlane.Machines c); reflexivity.
Qed.

(** C5: the candidate pool is the first non-empty of the outdated members
    with the delete-requested annotation, the members with it, the outdated
    members, the current members; the member returned belongs to the pool and
    to a failure domain that holds the most members of the pool; an empty pool
    gives an error. *)
Theorem selectMachineForScaleDown_precedence (c : ControlPlane.t)
    (outdatedMachines : list Machine.t) :
  (∀ pick, selectMachineForScaleDown pick c outdatedMachines
           = pick c (candidatePool c outdatedMachines))
  ∧ match candidatePool c outdatedMachines with
    | [] =>
        selectMachineForScaleDown MachineInFailureDomainWithMostMachines c outdatedMachines
        = (None, Some (Errorf pickError []))
    | _ :: _ =>
        ∃ m,
          selectMachineForScaleDown MachineInFailureDomainWithMostMachines c outdatedMachines
          = (Some m, None)
          ∧ m ∈ candidatePool c outdatedMachines
          ∧ ∀ m', m' ∈ candidatePool c outdatedMachines →
                  (membersIn (candidatePool c outdatedMachines) (Machine.FailureDomain m')
                   ≤ membersIn (candidatePool c outdatedMachines) (Machine.FailureDomain m))%nat
    end.
Proof.
  split; [intros; apply selectMachineForScaleDown_pool|].
  rewrite selectMachineForScaleDown_pool.
  destruct (candidatePool c outdatedMachines) as [|m0 pool] eqn:Hpool; [reflexivity|].
  set (machines := m0 :: pool) in *.
  destruct (FailureDomainWithMostMachines_inhabited machines) as (m1 & Hm1 & Hfd1); [done|].
  unfold MachineInFailureDomainWithMostMachines.
  destruct (List.filter (InFailureDomain (FailureDomainWithMostMachines machines)) machines)
    as [|m ms] eqn:Hfilter.
  { exfalso. assert (In m1 []) as []. rewrite <- Hfilter.
    apply filter_In. split; [by apply list_elem_of_In|].
    unfold InFailureDomain. by apply bool_decide_eq_true. }
  cbn [head]. exists m.
  assert (In m (m :: ms)) as Hin by (by left).
  rewrite <- Hfilter in Hin. apply filter_In in Hin as [Hin Hfd].
  apply bool_decide_eq_true in Hfd.
  split; [reflexivity|]. split; [by apply list_elem_of_In|].
  intros m' Hm'. rewrite Hfd. by apply FailureDomainWithMostMachines_fullest.
Qed.

(** The scenario of the spec: of four members, the outdated one with the
    annotation is selected although another failure domain holds more. *)
Example selectMachineForScaleDown_annotated_outdated :
  let annotated := {[ DeleteMachineAnnotation := "" ]} in
  let a := sampleMachine "a" "default" "a" None annotated (Some "fd1") [] in
  let b := sampleMachine "b" "default" "b" None annotated (Some "fd2") [] in
  let c := sampleMachine "c" "default" "c" None ∅ (Some "fd2") [] in
  let d := sampleMachine "d" "default" "d" None ∅ (Some "fd2") [] in
  selectMachineForScaleDown MachineInFailureDomainWithMostMachines (viewOf [a; b; c; d]) [a; c]
  = (Some a, None).
Proof. vm_compute. reflexivity. Qed.

(** ** Initialize *)

Lemma request_run (c : Call) (w : World) :
  ∃ w', request c w = (Returned (mjoin (head (faults w))), w')
        ∧ objects w' = objects w ∧ calls w' = calls w ++ [c] ∧ events w' = events w.
Proof. eexists. split; [reflexivity|]. by cbn. Qed.

(** C3: when the uncached read of the owned machines returns one machine or
    more, [initializeControlPlane] returns an empty result with an error and
    has sent nothing to the store but that read: no clone, no bootstrap
    configuration, no machine is created, no event is recorded. *)
Theorem initialize_guard (cluster : Cluster.t) (rcp : RKE2ControlPlane.t)
    (c : ControlPlane.t) (w w1 : World) (ownedMachines : list Machine.t) :
  GetMachinesForCluster cluster (OwnedMachines rcp) w = (Returned (ownedMachines, None), w1) →
  1 ≤ length ownedMachines →
  initializeControlPlane cluster rcp c w
  = (Returned (emptyResult,
               Some (Errorf alreadyInitialized
                            [ArgD (length ownedMachines); ArgS (Cluster.Namespace cluster);
                             ArgS (Cluster.Name cluster)])), w1)
  ∧ objects w1 = objects w
  ∧ calls w1 = calls w ++ [CallList]
  ∧ events w1 = events w.
Proof.
  intros Hread Hlen. split.
  - unfold initializeControlPlane, mbind, M_bind. rewrite Hread.
    destruct ownedMachines as [|m ms]; [cbn in Hlen; lia|reflexivity].
  - unfold GetMachinesForCluster, mbind, M_bind in Hread.
    destruct (request_run CallList w) as (w' & Hreq & Hobj & Hcalls & Hev).
    rewrite Hreq in Hread.
    destruct (mjoin (head (faults w))); cbn in Hread; [discriminate|].
    injection Hread as _ <-. done.
Qed.

Lemma initialize_guard_witness :
  (initializeControlPlane sampleCluster sampleRCP (viewOf [])
     {| objects := {[ machineKey (healthyMachine "m1") := MachineObject (healthyMachine "m1") ]};
        calls := []; events := []; faults := []; rand := [] |}).1
  = Returned (emptyResult,
              Some (Errorf alreadyInitialized [ArgD 1; ArgS "default"; ArgS "c1"])).
Proof.
  refine (f_equal fst (proj1 (initialize_guard sampleCluster sampleRCP (viewOf [])
            {| objects := {[ machineKey (healthyMachine "m1")
                             := MachineObject (healthyMachine "m1") ]};
               calls := []; events := []; faults := []; rand := [] |}
            {| objects := {[ machineKey (healthyMachine "m1")
                             := MachineObject (healthyMachine "m1") ]};
               calls := [CallList]; events := []; faults := []; rand := [] |}
            [healthyMachine "m1"] _ _))).
  - vm_compute. reflexivity.
  - cbn. lia.
Defined.

(** ** The provisioner *)

Lemma reasonOf_not_NotFound (f : Fault) : IsNotFound (StatusError (reasonOf f)) = false.
Proof. by destruct f. Qed.

(** A request to create comes back with an error and an untouched store, or
    with [nil] and the object stored under a key that was free. *)
Lemma Client_Create_spec (key : ObjectKey) (o : Object) (w : World) :
  ∃ r w', Client_Create key o w = (Returned r, w')
    ∧ calls w' = calls w ++ [CallCreate key]
    ∧ ((∃ e, r = Some e ∧ objects w' = objects w)
       ∨ (r = None ∧ objects w !! key = None ∧ objects w' = <[key := o]> (objects w))).
Proof.
  unfold Client_Create, mbind, M_bind, request, getObject, setObjects, mret, M_ret. cbn.
  destruct (mjoin (head (faults w))) as [f|]; cbn.
  { eexists _, _. split; [reflexivity|]. split; [done|]. left. eauto. }
  destruct (objects w !! key) eqn:Hk; cbn.
  - eexists _, _. split; [reflexivity|]. split; [done|]. left. eauto.
  - eexists _, _. split; [reflexivity|]. split; [done|]. right. done.
Qed.

(** A request to delete comes back with [nil] or "not found" and the key
    free, or with another error and an untouched store. *)
Lemma Client_Delete_spec (key : ObjectKey) (w : World) :
  ∃ r w', Client_Delete key w = (Returned r, w')
    ∧ calls w' = calls w ++ [CallDelete key]
    ∧ (((r = None ∨ ∃ e, r = Some e ∧ IsNotFound e = true)
        ∧ objects w' = delete key (objects w))
       ∨ (∃ e, r = Some e ∧ IsNotFound e = false ∧ objects w' = objects w)).
Proof.
  unfold Client_Delete, mbind, M_bind, request, getObject, setObjects, mret, M_ret. cbn.
  destruct (mjoin (head (faults w))) as [f|]; cbn.
  { eexists _, _. split; [reflexivity|]. split; [done|]. right.
    eexists. split; [done|]. split; [apply reasonOf_not_NotFound|done]. }
  destruct (objects w !! key) eqn:Hk; cbn.
  - eexists _, _. split; [reflexivity|]. split; [done|]. left. split; [by left|done].
  - eexists _, _. split; [reflexivity|]. split; [done|]. left.
    split; [right; eauto|]. by rewrite delete_id.
Qed.

Lemma GenerateName_run (base : string) (w : World) :
  ∃ name w', GenerateName base w = (Returned name, w')
    ∧ objects w' = objects w ∧ calls w' = calls w.
Proof. eexists _, _. split; [reflexivity|]. done. Qed.

Lemma CloneTemplate_spec (input : CloneTemplateInput.t) (w : World) :
  ∃ r w', CloneTemplate input w = (Returned r, w')
    ∧ calls w' = calls w ++ [CallClone (CloneTemplateInput.TemplateRef input)]
    ∧ ((∃ e, r = (None, Some e) ∧ objects w' = objects w)
       ∨ (∃ infra, r = (Some (InfraMachine.Ref infra), None)
            ∧ objects w !! refKey (InfraMachine.Ref infra) = None
            ∧ objects w' = <[refKey (InfraMachine.Ref infra) := InfraObject infra]> (objects w))).
Proof.
  unfold CloneTemplate, mbind, M_bind, request, GenerateName, getObject, setObjects,
    mret, M_ret. cbn.
  destruct (mjoin (head (faults w))) as [f|]; cbn.
  { eexists _, _. split; [reflexivity|]. split; [done|]. left. eauto. }
  match goal with |- context [objects w !! ?k] => destruct (objects w !! k) eqn:Hk end; cbn.
  - eexists _, _. split; [reflexivity|]. split; [done|]. left. eauto.
  - eexists _, _. split; [reflexivity|]. split; [done|]. right.
    eexists {| InfraMachine.Ref := _ |}. cbn. split; [reflexivity|]. split; [exact Hk|done].
Qed.

Lemma generateRKE2Config_spec (rcp : RKE2ControlPlane.t) (cluster : Cluster.t)
    (spec : RKE2AgentConfig) (w : World) :
  ∃ r w' key, generateRKE2Config rcp cluster (Some spec) w = (Returned r, w')
    ∧ calls w' = calls w ++ [CallCreate key]
    ∧ ((∃ e, r = (None, Some (Wrap e "Failed to create bootstrap configuration"))
             ∧ objects w' = objects w)
       ∨ (∃ ref config, r = (Some ref, None) ∧ refKey ref = key ∧ configKey config = key
            ∧ objects w !! key = None
            ∧ objects w' = <[key := ConfigObject config]> (objects w))).
Proof.
  unfold generateRKE2Config. unfold mbind at 1, M_bind at 1.
  destruct (GenerateName_run (RKE2ControlPlane.Name rcp ++ "-")%string w)
    as (name & w0 & -> & Hobj0 & Hcalls0).
  unfold deref. unfold mbind at 1, M_bind at 1, mret at 1, M_ret at 1.
  unfold mbind, M_bind.
  match goal with |- context [Client_Create ?k ?o w0] =>
    destruct (Client_Create_spec k o w0) as (r & w' & -> & Hcalls & Hcases);
    exists (match r with
            | Some err => (None, Some (Wrap err "Failed to create bootstrap configuration"))
            | None => (Some {| ObjectReference.APIVersion := bootstrapv1_GroupVersion;
                               ObjectReference.Kind := "RKE2Config";
                               ObjectReference.Name := name;
                               ObjectReference.Namespace := RKE2ControlPlane.Namespace rcp;
                               ObjectReference.UID := "" |}, None)
            end), w', k
  end.
  split; [by destruct r|]. split; [by rewrite Hcalls, Hcalls0|].
  destruct Hcases as [(e & -> & Hobj)|(-> & Hfree & Hobj)].
  - left. exists e. split; [done|]. by rewrite Hobj.
  - right. eexists _, {| RKE2Config.Name := name |}. split; [reflexivity|].
    split; [reflexivity|]. split; [reflexivity|].
    rewrite <- Hobj0. split; [exact Hfree|exact Hobj].
Qed.

Lemma generateMachine_spec (rcp : RKE2ControlPlane.t) (cluster : Cluster.t)
    (infra : ObjectReference.t) (bootstrapRef : option ObjectReference.t)
    (failureDomain : option string) (w : World) :
  ∃ r w' attempts,
    generateMachine rcp cluster (Some infra) bootstrapRef failureDomain w = (Returned r, w')
    ∧ calls w' = calls w ++ attempts
    ∧ ((∃ e, r = Some e ∧ objects w' = objects w
             ∧ (attempts = [] ∨ ∃ key, attempts = [CallCreate key]))
       ∨ (∃ m, r = None ∧ attempts = [CallCreate (machineKey m)]
            ∧ objects w !! machineKey m = None
            ∧ objects w' = <[machineKey m := MachineObject m]> (objects w)
            ∧ Machine.InfrastructureRef m = infra
            ∧ Machine.ConfigRef m = bootstrapRef
            ∧ Machine.FailureDomain m = failureDomain
            ∧ Machine.Version m = Some (rke2ToKubeVersion (RKE2ControlPlane.Version rcp)).1
            ∧ ∃ json, RKE2ControlPlane.ServerConfig rcp = ServerConfig json
                      ∧ Machine.Annotations m = {[ RKE2ServerConfigurationAnnotation := json ]})).
Proof.
  unfold generateMachine, rke2ToKubeVersion. cbn [fst].
  unfold mbind at 1, M_bind at 1.
  destruct (GenerateName_run (RKE2ControlPlane.Name rcp ++ "-")%string w)
    as (name & w0 & -> & Hobj0 & Hcalls0).
  unfold deref. unfold mbind at 1, M_bind at 1, mret at 1, M_ret at 1.
  destruct (RKE2ControlPlane.ServerConfig rcp) as [json|err] eqn:Hcfg; cbn [json_Marshal].
  2:{ eexists _, _, []. split; [reflexivity|]. split; [by rewrite app_nil_r|].
      left. eexists. split; [reflexivity|]. split; [done|by left]. }
  unfold mbind, M_bind.
  match goal with |- context [Client_Create ?k ?o w0] =>
    destruct (Client_Create_spec k o w0) as (r & w' & -> & Hcalls & Hcases);
    exists (match r with
            | Some err => Some (Wrap err "failed to create machine")
            | None => None
            end), w', [CallCreate k]
  end.
  split; [by destruct r|]. split; [by rewrite Hcalls, Hcalls0|].
  destruct Hcases as [(e & -> & Hobj)|(-> & Hfree & Hobj)].
  - left. eexists. split; [reflexivity|]. split; [by rewrite Hobj|]. right. eauto.
  - right. eexists {| Machine.Name := name |}. split; [reflexivity|].
    split; [reflexivity|]. rewrite <- Hobj0. split; [exact Hfree|]. split; [exact Hobj|].
    cbn. repeat split; eauto.
Qed.

(** The keys the cleanup sends a deletion for. *)
Lemma cleanupLoop_spec (remoteRefs : list (option ObjectReference.t)) (errs : list error)
    (w : World) :
  ∃ ds w', cleanupLoop remoteRefs errs w = (Returned (errs ++ ds), w')
    ∧ calls w' = calls w ++ (CallDelete <$> (refKey <$> omap id remoteRefs))
    ∧ Forall cleanupFailure ds
    ∧ (ds = [] → objects w' = foldl (λ store key, delete key store) (objects w)
                                    (refKey <$> omap id remoteRefs))
    ∧ (∀ key o, objects w' !! key = Some o → objects w !! key = Some o).
Proof.
  revert errs w. induction remoteRefs as [|[ref|] refs IH]; intros errs w; cbn [cleanupLoop].
  - exists [], w. rewrite !app_nil_r. cbn. repeat split; auto.
  - unfold mbind, M_bind.
    destruct (Client_Delete_spec (refKey ref) w) as (r & w1 & -> & Hcalls & Hcases).
    destruct Hcases as [[Hr Hobj]|(e & -> & Hnf & Hobj)].
    + assert ((match r with
               | Some err =>
                   if negb (IsNotFound err)
                   then cleanupLoop refs
                          (errs ++ [Wrap err "failed to cleanup generated resources after error"])
                   else cleanupLoop refs errs
               | None => cleanupLoop refs errs
               end) = cleanupLoop refs errs) as ->.
      { destruct Hr as [->|(e & -> & ->)]; reflexivity. }
      destruct (IH errs w1) as (ds & w' & -> & Hcalls' & Hds & Hclean & Hsub).
      exists ds, w'. split; [reflexivity|].
      split; [rewrite Hcalls', Hcalls; cbn; by rewrite <- app_assoc|].
      split; [done|]. split.
      * intros Hnil. rewrite (Hclean Hnil), Hobj. reflexivity.
      * intros key o Hk. apply Hsub in Hk. rewrite Hobj in Hk.
        by apply lookup_delete_Some in Hk as [_ ?].
    + rewrite Hnf. cbn [negb].
      destruct (IH (errs ++ [Wrap e "failed to cleanup generated resources after error"]) w1)
        as (ds & w' & -> & Hcalls' & Hds & Hclean & Hsub).
      exists (Wrap e "failed to cleanup generated resources after error" :: ds), w'.
      split; [by rewrite <- app_assoc|].
      split; [rewrite Hcalls', Hcalls; cbn; by rewrite <- app_assoc|].
      split; [constructor; [by exists e|done]|]. split; [discriminate|].
      intros key o Hk. apply Hsub in Hk. by rewrite Hobj in Hk.
  - apply IH.
Qed.

(** The rollback after a creation failure: the deletions are sent for the
    references at hand, the aggregate gains the cleanup failures, and the
    store is rolled back. *)
Lemma rollback_spec (w w1 : World) (creation : error) (refs : list (option ObjectReference.t)) :
  (∀ key o, objects w1 !! key = Some o →
            objects w !! key = Some o
            ∨ (key ∈ refKey <$> omap id refs ∧ ∀ m, o ≠ MachineObject m)) →
  foldl (λ store key, delete key store) (objects w1) (refKey <$> omap id refs) = objects w →
  ∃ cleanup w',
    (err ← cleanupFromGeneration refs;
     let errs := match err with
                 | Some err => [creation] ++ [Wrap err "failed to cleanup generated resources"]
                 | None => [creation]
                 end in
     mret (NewAggregate errs)) w1
    = (Returned (Some (Aggregate (creation :: cleanup))), w')
    ∧ calls w' = calls w1 ++ (CallDelete <$> (refKey <$> omap id refs))
    ∧ rolledBack w w' (refKey <$> omap id refs) cleanup.
Proof.
  intros Hnew Hundo. unfold cleanupFromGeneration, mbind, M_bind.
  destruct (cleanupLoop_spec refs [] w1) as (ds & w' & -> & Hcalls & Hds & Hclean & Hsub).
  cbn [app]. unfold mret, M_ret. destruct ds as [|d ds].
  - exists [], w'. split; [reflexivity|]. split; [exact Hcalls|]. left.
    split; [done|]. by rewrite Hclean.
  - eexists [_], w'. split; [reflexivity|]. split; [exact Hcalls|]. right.
    exists (d :: ds). split; [done|]. split; [done|]. split; [done|].
    intros key o Hk. by apply Hnew, Hsub.
Qed.

(** C2, as the code has it.  The provisioning always returns.  With a nil
    error it has created the clone, the bootstrap configuration and exactly one
    machine, which refers to both.  A failed clone is returned at once and
    nothing was created.  When the bootstrap configuration or the machine
    cannot be created, a deletion is sent for every child created so far, after
    the creation attempts; "not found" is no cleanup failure; the error is the
    aggregate of the creation failure and of the cleanup failures; no machine
    persists; and when no deletion failed the store is what it was before: no
    child persists.  A child whose deletion failed is not promised to be
    gone. *)
Theorem provisioning_rollback (cluster : Cluster.t) (rcp : RKE2ControlPlane.t)
    (spec : RKE2AgentConfig) (failureDomain : option string) (w : World) :
  ∃ r w',
    cloneConfigsAndGenerateMachine cluster rcp (Some spec) failureDomain w = (Returned r, w')
    ∧ match r with
      | None =>
          ∃ infra config machine,
            calls w' = calls w ++ [CallClone (RKE2ControlPlane.InfrastructureRef rcp);
                                   CallCreate (configKey config);
                                   CallCreate (machineKey machine)]
            ∧ objects w !! refKey (InfraMachine.Ref infra) = None
            ∧ objects w !! configKey config = None
            ∧ objects w !! machineKey machine = None
            ∧ objects w'
              = <[machineKey machine := MachineObject machine]>
                  (<[configKey config := ConfigObject config]>
                     (<[refKey (InfraMachine.Ref infra) := InfraObject infra]> (objects w)))
            ∧ Machine.InfrastructureRef machine = InfraMachine.Ref infra
            ∧ refKey <$> Machine.ConfigRef machine = Some (configKey config)
      | Some e =>
          (∃ e0, e = Wrap e0 "failed to clone infrastructure template"
                 ∧ calls w' = calls w ++ [CallClone (RKE2ControlPlane.InfrastructureRef rcp)]
                 ∧ objects w' = objects w)
          ∨ (∃ e0 infraKey cfgKey cleanup,
               e = Aggregate (Wrap (Wrap e0 "Failed to create bootstrap configuration")
                                   "failed to generate bootstrap config" :: cleanup)
               ∧ calls w' = calls w ++ [CallClone (RKE2ControlPlane.InfrastructureRef rcp);
                                        CallCreate cfgKey; CallDelete infraKey]
               ∧ rolledBack w w' [infraKey] cleanup)
          ∨ (∃ e0 infraKey cfgKey attempts cleanup,
               e = Aggregate (Wrap e0 "failed to create Machine" :: cleanup)
               ∧ calls w' = calls w ++ [CallClone (RKE2ControlPlane.InfrastructureRef rcp);
                                        CallCreate cfgKey]
                                    ++ attempts ++ [CallDelete infraKey; CallDelete cfgKey]
               ∧ (attempts = [] ∨ ∃ key, attempts = [CallCreate key])
               ∧ rolledBack w w' [infraKey; cfgKey] cleanup)
      end.
Proof.
  unfold cloneConfigsAndGenerateMachine. unfold mbind at 1, M_bind at 1.
  match goal with |- context [CloneTemplate ?i w] =>
    destruct (CloneTemplate_spec i w) as (r1 & w1 & -> & Hcalls1 & Hclone)
  end.
  cbn [CloneTemplateInput.TemplateRef] in Hcalls1.
  destruct Hclone as [(e0 & -> & Hobj1)|(infra & -> & Hfree1 & Hobj1)].
  { eexists _, w1. split; [reflexivity|]. left. eauto. }
  unfold mbind at 1, M_bind at 1.
  destruct (generateRKE2Config_spec rcp cluster spec w1)
    as (r2 & w2 & cfgKey & -> & Hcalls2 & Hconfig).
  destruct Hconfig as [(e0 & -> & Hobj2)|(ref & config & -> & Href & Hkey & Hfree2 & Hobj2)].
  { (* the bootstrap configuration was not created *)
    destruct (rollback_spec w w2
                (Wrap (Wrap e0 "Failed to create bootstrap configuration")
                      "failed to generate bootstrap config")
                [Some (InfraMachine.Ref infra); None])
      as (cleanup & w' & Hrun & Hcalls & Hback).
    - intros key o. rewrite Hobj2, Hobj1. intros [[<- <-]|[_ ?]]%lookup_insert_Some.
      + right. split; [by left|done].
      + by left.
    - cbn. rewrite Hobj2, Hobj1. by apply delete_insert_id.
    - eexists _, w'. split; [exact Hrun|]. right. left.
      exists e0, (refKey (InfraMachine.Ref infra)), cfgKey, cleanup.
      split; [done|]. split; [|exact Hback].
      rewrite Hcalls, Hcalls2, Hcalls1. cbn. by rewrite <- !app_assoc. }
  unfold mbind at 1, M_bind at 1. cbn [app length Nat.eqb].
  unfold mbind at 1, M_bind at 1.
  destruct (generateMachine_spec rcp cluster (InfraMachine.Ref infra) (Some ref)
              failureDomain w2) as (r3 & w3 & attempts & -> & Hcalls3 & Hmachine).
  assert (refKey (InfraMachine.Ref infra) ≠ cfgKey) as Hne.
  { intros <-. rewrite Hobj1 in Hfree2. by rewrite lookup_insert_eq in Hfree2. }
  assert (objects w !! cfgKey = None) as Hfree2'.
  { rewrite Hobj1 in Hfree2. by apply lookup_insert_None in Hfree2 as [? _]. }
  destruct Hmachine as [(e0 & -> & Hobj3 & Hattempts)
                       |(m & -> & -> & Hfree3 & Hobj3 & Hinfra & Hcfg & _)].
  { (* the machine was not created *)
    destruct (rollback_spec w w3 (Wrap e0 "failed to create Machine")
                [Some (InfraMachine.Ref infra); Some ref])
      as (cleanup & w' & Hrun & Hcalls & Hback).
    - intros key o.
      change (refKey <$> omap id [Some (InfraMachine.Ref infra); Some ref])
        with [refKey (InfraMachine.Ref infra); refKey ref].
      rewrite Hobj3, Hobj2, Hobj1, Href.
      intros [[<- <-]|[_ [[<- <-]|[_ ?]]%lookup_insert_Some]]%lookup_insert_Some.
      + right. split; [right; by left|done].
      + right. split; [by left|done].
      + by left.
    - change (refKey <$> omap id [Some (InfraMachine.Ref infra); Some ref])
        with [refKey (InfraMachine.Ref infra); refKey ref].
      cbn [foldl]. rewrite Hobj3, Hobj2, Hobj1, Href.
      rewrite delete_insert_ne by done.
      rewrite (delete_insert_id (objects w) (refKey (InfraMachine.Ref infra))) by done.
      by apply delete_insert_id.
    - eexists _, w'. split; [exact Hrun|]. right. right.
      exists e0, (refKey (InfraMachine.Ref infra)), cfgKey, attempts, cleanup.
      split; [done|]. split; [|split; [exact Hattempts|]].
      2:{ rewrite <- Href. exact Hback. }
      rewrite Hcalls, Hcalls3, Hcalls2, Hcalls1.
      change (refKey <$> omap id [Some (InfraMachine.Ref infra); Some ref])
        with [refKey (InfraMachine.Ref infra); refKey ref].
      rewrite Href. cbn. by rewrite <- !app_assoc. }
  (* full success *)
  eexists None, w3. split; [reflexivity|].
  exists infra, config, m. rewrite Hkey.
  split; [rewrite Hcalls3, Hcalls2, Hcalls1; cbn; by rewrite <- !app_assoc|].
  split; [exact Hfree1|]. split; [exact Hfree2'|].
  rewrite Hobj2, Hobj1 in Hfree3.
  apply lookup_insert_None in Hfree3 as [Hfree3 _].
  apply lookup_insert_None in Hfree3 as [Hfree3 _].
  split; [exact Hfree3|]. split; [by rewrite Hobj3, Hobj2, Hobj1|].
  split; [exact Hinfra|]. rewrite Hcfg. cbn. by rewrite Href.
Qed.

(** C2 as stated fails where a cleanup deletion fails: the clone is created,
    the bootstrap configuration is refused, the deletion of the clone times
    out; the provisioning returns an error and the clone is still stored. *)
Lemma provisioning_rollback_counterexample :
  (∃ e, (cloneConfigsAndGenerateMachine sampleCluster sampleRCP (Some "agent") None
           cleanupFailureWorld).1 = Returned (Some e))
  ∧ objects cleanupFailureWorld = ∅
  ∧ is_Some (objects (cloneConfigsAndGenerateMachine sampleCluster sampleRCP (Some "agent") None
                        cleanupFailureWorld).2
             !! ("VSphereMachine", "default", "cp-template-x1")).
Proof.
  split; [|split; [reflexivity|]].
  - eexists. vm_compute. reflexivity.
  - vm_compute. eexists. reflexivity.
Qed.

(** The rollback at work: the bootstrap configuration is refused, the clone
    is deleted, the store is empty again and the deletion was the last
    request. *)
Example provisioning_rolls_back_the_clone :
  let r := cloneConfigsAndGenerateMachine sampleCluster sampleRCP (Some "agent") None
             configFailureWorld in
  r.1 = Returned (Some (Aggregate
          [Wrap (Wrap (StatusError StatusReasonForbidden)
                      "Failed to create bootstrap configuration")
                "failed to generate bootstrap config"]))
  ∧ objects r.2 = ∅
  ∧ calls r.2 = [CallClone sampleTemplate;
                 CallCreate ("RKE2Config", "default", "rke2-control-plane-x2");
                 CallDelete ("VSphereMachine", "default", "cp-template-x1")].
Proof. vm_compute. repeat split; reflexivity. Qed.

(** Full success: one machine is stored, with the translated version and the
    references to its two children. *)
Example provisioning_creates_one_machine :
  let r := cloneConfigsAndGenerateMachine sampleCluster sampleRCP (Some "agent") None
             servingWorld in
  r.1 = Returned None
  ∧ (Machine.Name <$> machinesOf (objects r.2)) = ["rke2-control-plane-x3"]
  ∧ (Machine.Version <$> machinesOf (objects r.2)) = [Some "1.23.4"]
  ∧ calls r.2 = [CallClone sampleTemplate;
                 CallCreate ("RKE2Config", "default", "rke2-control-plane-x2");
                 CallCreate ("Machine", "default", "rke2-control-plane-x3")].
Proof. vm_compute. repeat split; reflexivity. Qed.

(* ===================================================================== *)
(** * Further properties of scale.go *)
(* ===================================================================== *)

(** ** More on the version translator *)

Lemma string_append_cons (c : ascii) (s r : string) :
  String c s +:+ r = String c (s +:+ r).
Proof. reflexivity. Qed.

Lemma string_append_nil (r : string) : "" +:+ r = r.
Proof. reflexivity. Qed.

Lemma string_length_append (s r : string) :
  String.length (s +:+ r) = String.length s + String.length r.
Proof.
  induction s as [|c s IH]; [reflexivity|].
  rewrite string_append_cons. cbn [String.length]. by rewrite IH.
Qed.

(** A successful match splits the string into the matched text and the
    rest, and the matched text has one byte per atom. *)
Lemma matchAtoms_split (p : list Atom) (s m rest : string) :
  matchAtoms p s = Some (m, rest) →
  s = m +:+ rest ∧ String.length m = length p.
Proof.
  revert s m rest. induction p as [|a p IH]; intros s m rest; cbn [matchAtoms].
  { intros [= <- <-]. done. }
  destruct s as [|c s]; [discriminate|].
  destruct (matchAtom a c); [|discriminate].
  destruct (matchAtoms p s) as [[m' rest']|] eqn:Hm; [|discriminate].
  intros [= <- <-]. destruct (IH _ _ _ Hm) as [-> Hlen].
  rewrite string_append_cons. cbn [String.length length]. by rewrite Hlen.
Qed.

Lemma matchHere_lengths (s g rest : string) :
  matchHere regexStr s = Some (g, rest) →
  String.length g = 6 ∧ String.length s = 14 + String.length rest.
Proof.
  unfold matchHere.
  destruct (matchAtoms (beforeGroup regexStr) s) as [[m1 s1]|] eqn:H1; [|discriminate].
  destruct (matchAtoms (group1 regexStr) s1) as [[m2 s2]|] eqn:H2; [|discriminate].
  destruct (matchAtoms (afterGroup regexStr) s2) as [[m3 s3]|] eqn:H3; [|discriminate].
  intros [= <- <-].
  apply matchAtoms_split in H1 as [-> L1], H2 as [-> L2], H3 as [-> L3].
  rewrite !string_length_append, L1, L2, L3. cbn. lia.
Qed.

(** Every byte of the output is paid for by a byte of the input, skipped
    bytes apart. *)
Lemma replaceAllFrom_length (skip : nat) (s : string) :
  String.length (replaceAllFrom regexStr skip s) + min skip (String.length s)
  ≤ String.length s.
Proof.
  revert skip. induction s as [|c s IH]; intros skip; cbn [replaceAllFrom String.length].
  { lia. }
  destruct skip as [|k].
  - destruct (matchHere regexStr (String c s)) as [[g rest]|] eqn:Hm.
    + apply matchHere_lengths in Hm as [Hg Hs]. cbn [String.length] in Hs.
      change (width regexStr - 1) with 13.
      change (g ++ replaceAllFrom regexStr 13 s)%string
        with (g +:+ replaceAllFrom regexStr 13 s).
      rewrite string_length_append, Hg. specialize (IH 13). lia.
    + cbn [String.length]. specialize (IH 0). lia.
  - specialize (IH k). lia.
Qed.

Lemma replaceAllFrom_shrinks (s : string) :
  MatchString regexStr s = true →
  String.length (replaceAllFrom regexStr 0 s) < String.length s.
Proof.
  induction s as [|c s IH]; cbn [MatchString replaceAllFrom]; [discriminate|].
  destruct (matchHere regexStr (String c s)) as [[g rest]|] eqn:Hm.
  - intros _. apply matchHere_lengths in Hm as [Hg Hs].
    change (width regexStr - 1) with 13.
    change (g ++ replaceAllFrom regexStr 13 s)%string
      with (g +:+ replaceAllFrom regexStr 13 s).
    rewrite string_length_append, Hg. cbn [String.length] in *.
    pose proof (replaceAllFrom_length 13 s). lia.
  - intros Hrest. cbn [String.length]. specialize (IH Hrest). lia.
Qed.

(** X1: the translation never fails, never lengthens its input, and hands the
    input back unchanged exactly when the expression matches nowhere in it. *)
Theorem rke2ToKubeVersion_unchanged_iff_unmatched (s : string) :
  (rke2ToKubeVersion s).2 = None
  ∧ String.length (rke2ToKubeVersion s).1 ≤ String.length s
  ∧ ((rke2ToKubeVersion s).1 = s ↔ MatchString regexStr s = false).
Proof.
  unfold rke2ToKubeVersion, ReplaceAll. cbn [fst snd]. split; [reflexivity|]. split.
  - pose proof (replaceAllFrom_length 0 s). lia.
  - split; [|apply replaceAllFrom_no_match].
    intros Heq. destruct (MatchString regexStr s) eqn:Hm; [|reflexivity].
    apply replaceAllFrom_shrinks in Hm. rewrite Heq in Hm. lia.
Qed.

(** X2: the expression is not anchored at the end.  A string that starts
    with a version [v<d>.<dd>.<d>+rke2r<d>] is translated to the bare version
    followed by the translation of what comes after it. *)
Theorem rke2ToKubeVersion_leading_version
    (major minor1 minor2 patch revision : ascii) (rest : string) :
  isDigit major = true → isDigit minor1 = true → isDigit minor2 = true →
  isDigit patch = true → isDigit revision = true →
  (rke2ToKubeVersion (rke2Version major minor1 minor2 patch revision +:+ rest)).1
  = kubeVersion major minor1 minor2 patch +:+ (rke2ToKubeVersion rest).1.
Proof.
  intros Ha Hb Hc Hd He.
  unfold rke2ToKubeVersion, ReplaceAll, rke2Version, kubeVersion. cbn [fst].
  rewrite !string_append_cons, !string_append_nil.
  cbn [replaceAllFrom].
  unfold matchHere. cbn -[isDigit replaceAllFrom].
  rewrite Ha; cbn -[isDigit replaceAllFrom]. rewrite Hb; cbn -[isDigit replaceAllFrom].
  rewrite Hc; cbn -[isDigit replaceAllFrom]. rewrite Hd; cbn -[isDigit replaceAllFrom].
  rewrite He; cbn -[isDigit replaceAllFrom].
  change (width regexStr - 1) with 13. cbn [replaceAllFrom].
  reflexivity.
Qed.

Lemma rke2ToKubeVersion_leading_version_witness :
  (rke2ToKubeVersion "v1.23.4+rke2r12 on v1.24.9+rke2r3").1 = "1.23.42 on 1.24.9".
Proof.
  exact (rke2ToKubeVersion_leading_version "1" "2" "3" "4" "1" "2 on v1.24.9+rke2r3"
           eq_refl eq_refl eq_refl eq_refl eq_refl).
Defined.

(** ** What the preflight gate leaves alone *)

(** X3: the preflight gate reads the view only.  It sends nothing to the
    store and leaves it, the pending failures and the name supply as they are;
    when it returns, its error is nil; and it records an event, one
    [ControlPlaneUnhealthy] warning, exactly when it answers with the
    [preflightFailedRequeueAfter] backoff. *)
Theorem preflightChecks_reads_only (c : ControlPlane.t)
    (excludeFor : list (option Machine.t)) (w : World) :
  storeFree (preflightChecks c excludeFor)
  ∧ (∀ result err, (preflightChecks c excludeFor w).1 = Returned (result, err) → err = None)
  ∧ ((preflightChecks c excludeFor w).1 = Returned (unhealthyResult, None)
     ∧ (∃ errs, events (preflightChecks c excludeFor w).2
                = events w ++ [warningEvent "ControlPlaneUnhealthy"
                     "Waiting for control plane to pass preflight checks to continue reconciliation: %v"
                     [EvV (Some (Aggregate errs))]])
     ∨ (preflightChecks c excludeFor w).1 ≠ Returned (unhealthyResult, None)
       ∧ events (preflightChecks c excludeFor w).2 = events w).
Proof.
  assert (∀ w0, ControlPlane.Machines c = [] ∨ HasDeletingMachine c = true →
                (preflightChecks c excludeFor w0).2 = w0
                ∧ ∃ r, (preflightChecks c excludeFor w0).1 = Returned (r, None)
                       ∧ r ≠ unhealthyResult) as Hearly.
  { intros w0 Hcase. unfold preflightChecks.
    destruct (ControlPlane.Machines c) as [|m ms] eqn:Hms; cbn.
    { split; [done|]. by exists emptyResult. }
    destruct Hcase as [?| ->]; [done|]. cbn. split; [done|]. by exists deletingResult. }
  destruct (ControlPlane.Machines c) as [|m ms] eqn:Hms.
  { split; [|split].
    - intros w0. by destruct (Hearly w0 (or_introl eq_refl)) as [-> _].
    - intros result err. destruct (Hearly w (or_introl eq_refl)) as [_ (r & -> & _)].
      by intros [= _ <-].
    - right. destruct (Hearly w (or_introl eq_refl)) as [-> (r & -> & Hr)].
      split; [congruence|done]. }
  destruct (HasDeletingMachine c) eqn:Hdel.
  { split; [|split].
    - intros w0. by destruct (Hearly w0 (or_intror eq_refl)) as [-> _].
    - intros result err. destruct (Hearly w (or_intror eq_refl)) as [_ (r & -> & _)].
      by intros [= _ <-].
    - right. destruct (Hearly w (or_intror eq_refl)) as [-> (r & -> & Hr)].
      split; [congruence|done]. }
  assert (ControlPlane.Machines c ≠ []) as Hne by (by rewrite Hms).
  split; [|split].
  - intros w0. rewrite preflightChecks_health by done.
    destruct (loopmachines _ excludeFor []) as [[|e es]|msg]; done.
  - intros result err. rewrite preflightChecks_health by done.
    destruct (loopmachines _ excludeFor []) as [[|e es]|msg]; cbn;
      [by intros [= _ <-]|by intros [= _ <-]|discriminate].
  - rewrite preflightChecks_health by done.
    destruct (loopmachines _ excludeFor []) as [[|e es]|msg]; cbn.
    + right. split; [discriminate|done].
    + left. split; [done|]. by exists (e :: es).
    + right. split; [discriminate|done].
Qed.

(** ** Events of the provisioner *)

Lemma silent_ret {A} (a : A) : silent (mret a : M A).
Proof. intros w. done. Qed.

Lemma silent_bind {A B} (m : M A) (f : A → M B) :
  silent m → (∀ a, silent (f a)) → silent (m ≫= f).
Proof.
  intros Hm Hf w. unfold mbind, M_bind. specialize (Hm w).
  destruct (m w) as [[a|msg] w1]; cbn in *; [|done].
  by rewrite Hf.
Qed.

Lemma silent_request (c : Call) : silent (request c).
Proof. intros w. done. Qed.

Lemma silent_getObject (key : ObjectKey) : silent (getObject key).
Proof. intros w. done. Qed.

Lemma silent_setObjects (f : gmap ObjectKey Object → gmap ObjectKey Object) :
  silent (setObjects f).
Proof. intros w. done. Qed.

Lemma silent_GenerateName (base : string) : silent (GenerateName base).
Proof. intros w. done. Qed.

Lemma silent_deref {A} (p : option A) : silent (deref p).
Proof. intros w. by destruct p. Qed.

Lemma silent_Client_Create (key : ObjectKey) (o : Object) : silent (Client_Create key o).
Proof.
  unfold Client_Create. apply silent_bind; [apply silent_request|].
  intros [f|]; [apply silent_ret|].
  apply silent_bind; [apply silent_getObject|].
  intros [old|]; [apply silent_ret|].
  apply silent_bind; [apply silent_setObjects|]. intros _. apply silent_ret.
Qed.

Lemma silent_Client_Delete (key : ObjectKey) : silent (Client_Delete key).
Proof.
  unfold Client_Delete. apply silent_bind; [apply silent_request|].
  intros [f|]; [apply silent_ret|].
  apply silent_bind; [apply silent_getObject|].
  intros [old|]; [|apply silent_ret].
  apply silent_bind; [apply silent_setObjects|]. intros _. apply silent_ret.
Qed.

Lemma silent_CloneTemplate (input : CloneTemplateInput.t) : silent (CloneTemplate input).
Proof.
  unfold CloneTemplate. apply silent_bind; [apply silent_request|].
  intros [f|]; [apply silent_ret|].
  apply silent_bind; [apply silent_GenerateName|]. intros name.
  apply silent_bind; [apply silent_getObject|].
  intros [old|]; [apply silent_ret|].
  apply silent_bind; [apply silent_setObjects|]. intros _. apply silent_ret.
Qed.

Lemma silent_generateRKE2Config (rcp : RKE2ControlPlane.t) (cluster : Cluster.t)
    (spec : option RKE2AgentConfig) : silent (generateRKE2Config rcp cluster spec).
Proof.
  unfold generateRKE2Config. apply silent_bind; [apply silent_GenerateName|]. intros name.
  apply silent_bind; [apply silent_deref|]. intros agentConfig.
  apply silent_bind; [apply silent_Client_Create|].
  intros [err|]; apply silent_ret.
Qed.

Lemma silent_generateMachine (rcp : RKE2ControlPlane.t) (cluster : Cluster.t)
    (infraRef bootstrapRef : option ObjectReference.t) (failureDomain : option string) :
  silent (generateMachine rcp cluster infraRef bootstrapRef failureDomain).
Proof.
  unfold generateMachine, rke2ToKubeVersion.
  apply silent_bind; [apply silent_GenerateName|]. intros name.
  apply silent_bind; [apply silent_deref|]. intros infra.
  destruct (json_Marshal (RKE2ControlPlane.ServerConfig rcp)) as [serverConfig [err|]];
    [apply silent_ret|].
  apply silent_bind; [apply silent_Client_Create|].
  intros [err|]; apply silent_ret.
Qed.

Lemma silent_cleanupLoop (remoteRefs : list (option ObjectReference.t)) (errs : list error) :
  silent (cleanupLoop remoteRefs errs).
Proof.
  revert errs. induction remoteRefs as [|[ref|] refs IH]; intros errs; cbn [cleanupLoop].
  - apply silent_ret.
  - apply silent_bind; [apply silent_Client_Delete|].
    intros [err|]; [|apply IH]. destruct (negb (IsNotFound err)); apply IH.
  - apply IH.
Qed.

Lemma silent_cleanupFromGeneration (remoteRefs : list (option ObjectReference.t)) :
  silent (cleanupFromGeneration remoteRefs).
Proof.
  unfold cleanupFromGeneration. apply silent_bind; [apply silent_cleanupLoop|].
  intros errs. apply silent_ret.
Qed.

Lemma silent_cloneConfigsAndGenerateMachine (cluster : Cluster.t) (rcp : RKE2ControlPlane.t)
    (bootstrapSpec : option RKE2AgentConfig) (failureDomain : option string) :
  silent (cloneConfigsAndGenerateMachine cluster rcp bootstrapSpec failureDomain).
Proof.
  unfold cloneConfigsAndGenerateMachine.
  apply silent_bind; [apply silent_CloneTemplate|]. intros [infraRef [err|]];
    [apply silent_ret|].
  apply silent_bind; [apply silent_generateRKE2Config|]. intros [bootstrapRef err].
  apply silent_bind.
  - match goal with |- silent (if ?b then _ else _) => destruct b end; [|apply silent_ret].
    apply silent_bind; [apply silent_generateMachine|]. intros [e|]; apply silent_ret.
  - intros errs.
    match goal with |- silent (if ?b then _ else _) => destruct b end; [|apply silent_ret].
    apply silent_bind; [apply silent_cleanupFromGeneration|]. intros e. apply silent_ret.
Qed.

(** ** What a provisioning leaves in the store *)

Lemma rolledBack_noNewMachine (w w' : World) (created : list ObjectKey)
    (cleanup : list error) :
  rolledBack w w' created cleanup → noNewMachine w w'.
Proof.
  intros [[_ Hobj]|(ds & _ & _ & _ & Hsub)] key m Hk.
  - by rewrite Hobj in Hk.
  - destruct (Hsub key _ Hk) as [?|[_ Hno]]; [done|]. by destruct (Hno m).
Qed.

(** The provisioning always returns.  With a nil error the store holds one
    new machine, in the given failure domain, with the translated version, and
    the two children the machine refers to; with an error it holds no new
    machine. *)
Lemma provisioning_cases (cluster : Cluster.t) (rcp : RKE2ControlPlane.t)
    (spec : RKE2AgentConfig) (failureDomain : option string) (w : World) :
  ∃ r w',
    cloneConfigsAndGenerateMachine cluster rcp (Some spec) failureDomain w = (Returned r, w')
    ∧ match r with
      | None =>
          ∃ m, objects w !! machineKey m = None
               ∧ objects w' !! machineKey m = Some (MachineObject m)
               ∧ (∀ key m', objects w' !! key = Some (MachineObject m') →
                            key = machineKey m ∨ objects w !! key = Some (MachineObject m'))
               ∧ Machine.FailureDomain m = failureDomain
               ∧ Machine.Version m = Some (rke2ToKubeVersion (RKE2ControlPlane.Version rcp)).1
               ∧ (∃ infra, objects w' !! refKey (Machine.InfrastructureRef m)
                           = Some (InfraObject infra))
               ∧ (∃ ref config, Machine.ConfigRef m = Some ref
                                ∧ objects w' !! refKey ref = Some (ConfigObject config))
      | Some e => noNewMachine w w'
      end.
Proof.
  unfold cloneConfigsAndGenerateMachine. unfold mbind at 1, M_bind at 1.
  match goal with |- context [CloneTemplate ?i w] =>
    destruct (CloneTemplate_spec i w) as (r1 & w1 & -> & _ & Hclone)
  end.
  destruct Hclone as [(e0 & -> & Hobj1)|(infra & -> & Hfree1 & Hobj1)].
  { eexists _, w1. split; [reflexivity|]. intros key m. by rewrite Hobj1. }
  unfold mbind at 1, M_bind at 1.
  destruct (generateRKE2Config_spec rcp cluster spec w1)
    as (r2 & w2 & cfgKey & -> & _ & Hconfig).
  destruct Hconfig as [(e0 & -> & Hobj2)|(ref & config & -> & Href & Hkey & Hfree2 & Hobj2)].
  { destruct (rollback_spec w w2
                (Wrap (Wrap e0 "Failed to create bootstrap configuration")
                      "failed to generate bootstrap config")
                [Some (InfraMachine.Ref infra); None])
      as (cleanup & w' & Hrun & _ & Hback).
    - intros key o. rewrite Hobj2, Hobj1. intros [[<- <-]|[_ ?]]%lookup_insert_Some.
      + right. split; [by left|done].
      + by left.
    - cbn. rewrite Hobj2, Hobj1. by apply delete_insert_id.
    - eexists _, w'. split; [exact Hrun|]. by eapply rolledBack_noNewMachine. }
  unfold mbind at 1, M_bind at 1. cbn [app length Nat.eqb].
  unfold mbind at 1, M_bind at 1.
  destruct (generateMachine_spec rcp cluster (InfraMachine.Ref infra) (Some ref)
              failureDomain w2) as (r3 & w3 & attempts & -> & _ & Hmachine).
  assert (refKey (InfraMachine.Ref infra) ≠ cfgKey) as Hne.
  { intros <-. rewrite Hobj1 in Hfree2. by rewrite lookup_insert_eq in Hfree2. }
  assert (objects w !! cfgKey = None) as Hfree2'.
  { rewrite Hobj1 in Hfree2. by apply lookup_insert_None in Hfree2 as [? _]. }
  destruct Hmachine as [(e0 & -> & Hobj3 & _)
                       |(m & -> & -> & Hfree3 & Hobj3 & Hinfra & Hcfg & Hfd & Hver & _)].
  { destruct (rollback_spec w w3 (Wrap e0 "failed to create Machine")
                [Some (InfraMachine.Ref infra); Some ref])
      as (cleanup & w' & Hrun & _ & Hback).
    - intros key o.
      change (refKey <$> omap id [Some (InfraMachine.Ref infra); Some ref])
        with [refKey (InfraMachine.Ref infra); refKey ref].
      rewrite Hobj3, Hobj2, Hobj1, Href.
      intros [[<- <-]|[_ [[<- <-]|[_ ?]]%lookup_insert_Some]]%lookup_insert_Some.
      + right. split; [right; by left|done].
      + right. split; [by left|done].
      + by left.
    - change (refKey <$> omap id [Some (InfraMachine.Ref infra); Some ref])
        with [refKey (InfraMachine.Ref infra); refKey ref].
      cbn [foldl]. rewrite Hobj3, Hobj2, Hobj1, Href.
      rewrite delete_insert_ne by done.
      rewrite (delete_insert_id (objects w) (refKey (InfraMachine.Ref infra))) by done.
      by apply delete_insert_id.
    - eexists _, w'. split; [exact Hrun|]. by eapply rolledBack_noNewMachine. }
  eexists None, w3. split; [reflexivity|]. exists m.
  rewrite Hobj2, Hobj1 in Hfree3.
  apply lookup_insert_None in Hfree3 as [Hfree3 Hne3].
  apply lookup_insert_None in Hfree3 as [Hfree3 Hne3'].
  rewrite Hobj3, Hobj2, Hobj1.
  split; [exact Hfree3|]. split; [by rewrite lookup_insert_eq|]. split.
  { intros key m'.
    intros [[<- _]|[_ [[_ ?]|[_ [[_ ?]|[_ ?]]%lookup_insert_Some]]%lookup_insert_Some]]
      %lookup_insert_Some; [by left|done|done|by right]. }
  split; [exact Hfd|]. split; [exact Hver|]. split.
  - exists infra. rewrite Hinfra.
    rewrite lookup_insert_ne by done. rewrite lookup_insert_ne by done.
    by rewrite lookup_insert_eq.
  - exists ref, config. split; [exact Hcfg|]. rewrite Href.
    rewrite lookup_insert_ne by done. by rewrite lookup_insert_eq.
Qed.

(** ** Scale up and initialize *)

Lemma preflightChecks_storeFree (c : ControlPlane.t) (excludeFor : list (option Machine.t)) :
  storeFree (preflightChecks c excludeFor).
Proof.
  intros w. destruct (ControlPlane.Machines c) as [|m ms] eqn:Hms.
  { unfold preflightChecks. by rewrite Hms. }
  destruct (HasDeletingMachine c) eqn:Hdel.
  { unfold preflightChecks. by rewrite Hms, Hdel. }
  rewrite preflightChecks_health; [|by rewrite Hms|done].
  destruct (loopmachines _ excludeFor []) as [[|e es]|msg]; done.
Qed.

(** X4: a gate that does not pass stops the scale up.  The operation hands
    back the result of the gate as it is, with its backoff and a nil error,
    and has sent nothing to the store. *)
Theorem scaleUp_blocked_by_gate (cluster : Cluster.t) (rcp : RKE2ControlPlane.t)
    (c : ControlPlane.t) (w : World) (result : Result) :
  (preflightChecks c [] w).1 = Returned (result, None) → IsZero result = false →
  scaleUpControlPlane cluster rcp c w = preflightChecks c [] w
  ∧ (scaleUpControlPlane cluster rcp c w).1 = Returned (result, None)
  ∧ objects (scaleUpControlPlane cluster rcp c w).2 = objects w
  ∧ calls (scaleUpControlPlane cluster rcp c w).2 = calls w.
Proof.
  intros Hgate Hblocked.
  assert (scaleUpControlPlane cluster rcp c w = preflightChecks c [] w) as Heq.
  { unfold scaleUpControlPlane, mbind, M_bind.
    destruct (preflightChecks c [] w) as [[[res err]|msg] w1]; [|done].
    cbn in Hgate. injection Hgate as -> ->. rewrite Hblocked. reflexivity. }
  rewrite Heq. split; [done|]. split; [done|].
  destruct (preflightChecks_storeFree c [] w) as (Hobj & Hcalls & _). done.
Qed.

Lemma scaleUp_blocked_by_gate_witness :
  scaleUpControlPlane sampleCluster sampleRCP
    (viewOf [healthyMachine "m1"; deletingMachine "m2"]) servingWorld
  = (Returned (deletingResult, None), servingWorld).
Proof.
  refine (eq_trans (proj1 (scaleUp_blocked_by_gate sampleCluster sampleRCP
            (viewOf [healthyMachine "m1"; deletingMachine "m2"]) servingWorld deletingResult
            _ _)) _); reflexivity.
Defined.

(** X5: a scale up whose gate passes provisions one machine with the join
    configuration.  It always returns, never with a backoff.  With a nil error
    it asks for a requeue, has recorded no event, and the store holds one new
    machine, in the failure domain [NextFailureDomainForScaleUp] gave, together
    with the two children it refers to.  With an error it returns an empty
    result and that error, the store holds no new machine, and one
    [FailedScaleUp] warning carrying the error was recorded. *)
Theorem scaleUp_provisions_one_machine (cluster : Cluster.t) (rcp : RKE2ControlPlane.t)
    (c : ControlPlane.t) (spec : RKE2AgentConfig) (w : World) :
  (preflightChecks c [] w).1 = Returned (emptyResult, None) →
  JoinControlPlaneConfig c = Some spec →
  ∃ r w',
    scaleUpControlPlane cluster rcp c w = (Returned r, w')
    ∧ match r.2 with
      | None =>
          r.1 = requeueResult ∧ events w' = events w
          ∧ ∃ m, objects w !! machineKey m = None
                 ∧ objects w' !! machineKey m = Some (MachineObject m)
                 ∧ (∀ key m', objects w' !! key = Some (MachineObject m') →
                              key = machineKey m
                              ∨ objects w !! key = Some (MachineObject m'))
                 ∧ Machine.FailureDomain m = NextFailureDomainForScaleUp c
                 ∧ (∃ infra, objects w' !! refKey (Machine.InfrastructureRef m)
                             = Some (InfraObject infra))
                 ∧ (∃ ref config, Machine.ConfigRef m = Some ref
                                  ∧ objects w' !! refKey ref = Some (ConfigObject config))
      | Some e =>
          r.1 = emptyResult ∧ noNewMachine w w'
          ∧ events w' = events w ++ [warningEvent "FailedScaleUp"
              "Failed to create additional control plane Machine for cluster %s/%s control plane: %v"
              [EvS (Cluster.Namespace cluster); EvS (Cluster.Name cluster); EvV (Some e)]]
      end.
Proof.
  intros Hgate Hjoin. apply preflightChecks_pass_world in Hgate.
  unfold scaleUpControlPlane. unfold mbind at 1, M_bind at 1. rewrite Hgate.
  rewrite bool_decide_eq_false_2 by (intros [? ?]; discriminate).
  change (negb (IsZero emptyResult)) with false. cbn [orb]. rewrite Hjoin.
  cbv zeta. unfold mbind, M_bind. cbv beta.
  pose proof (silent_cloneConfigsAndGenerateMachine cluster rcp (Some spec)
                (NextFailureDomainForScaleUp c) w) as Hev.
  destruct (provisioning_cases cluster rcp spec (NextFailureDomainForScaleUp c) w)
    as ([e|] & w1 & Hrun & Hcases); rewrite Hrun in Hev |- *; cbn in Hev.
  - eexists (_, Some e), _. split; [reflexivity|]. cbn. split; [done|].
    split; [exact Hcases|]. by rewrite Hev.
  - eexists (_, None), _. split; [reflexivity|]. cbn. split; [done|]. split; [done|].
    destruct Hcases as (m & ? & ? & ? & ? & _ & ? & ?). exists m. done.
Qed.

Lemma scaleUp_provisions_one_machine_witness :
  ∃ r w',
    scaleUpControlPlane sampleCluster sampleRCP (viewOf [healthyMachine "m1"]) servingWorld
    = (Returned r, w')
    ∧ r = (requeueResult, None)
    ∧ ∃ m, objects w' !! machineKey m = Some (MachineObject m)
           ∧ Machine.FailureDomain m = None.
Proof.
  destruct (scaleUp_provisions_one_machine sampleCluster sampleRCP
              (viewOf [healthyMachine "m1"]) "agent" servingWorld eq_refl eq_refl)
    as (r & w' & Hrun & Hcases).
  exists r, w'. split; [exact Hrun|].
  assert (r = (requeueResult, None)) as ->.
  { vm_compute in Hrun. by injection Hrun as <- _. }
  split; [reflexivity|]. cbn in Hcases.
  destruct Hcases as (_ & _ & m & _ & Hm & _ & Hfd & _). exists m. split; [exact Hm|exact Hfd].
Defined.

Lemma GetMachinesForCluster_frame (cluster : Cluster.t) (filter : Machine.t → bool)
    (w w1 : World) (r : Outcome (list Machine.t * option error)) :
  GetMachinesForCluster cluster filter w = (r, w1) →
  objects w1 = objects w ∧ calls w1 = calls w ++ [CallList] ∧ events w1 = events w.
Proof.
  unfold GetMachinesForCluster, mbind, M_bind.
  destruct (request_run CallList w) as (w' & -> & Hobj & Hcalls & Hev).
  destruct (mjoin (head (faults w))); cbn; by intros [= _ <-].
Qed.

(** X6: an initialization whose uncached read finds no owned machine
    provisions one machine with the initial configuration.  It always returns,
    never with a backoff.  With a nil error it asks for a requeue, has recorded
    no event, and the store holds one new machine, in the failure domain
    [NextFailureDomainForScaleUp] gave.  With an error it returns an empty
    result and that error, the store holds no new machine, and one
    [FailedInitialization] warning carrying the error was recorded. *)
Theorem initialize_provisions_one_machine (cluster : Cluster.t) (rcp : RKE2ControlPlane.t)
    (c : ControlPlane.t) (spec : RKE2AgentConfig) (w w1 : World) :
  GetMachinesForCluster cluster (OwnedMachines rcp) w = (Returned ([], None), w1) →
  InitialControlPlaneConfig c = Some spec →
  ∃ r w',
    initializeControlPlane cluster rcp c w = (Returned r, w')
    ∧ match r.2 with
      | None =>
          r.1 = requeueResult ∧ events w' = events w
          ∧ ∃ m, objects w !! machineKey m = None
                 ∧ objects w' !! machineKey m = Some (MachineObject m)
                 ∧ (∀ key m', objects w' !! key = Some (MachineObject m') →
                              key = machineKey m
                              ∨ objects w !! key = Some (MachineObject m'))
                 ∧ Machine.FailureDomain m = NextFailureDomainForScaleUp c
      | Some e =>
          r.1 = emptyResult ∧ noNewMachine w w'
          ∧ events w' = events w ++ [warningEvent "FailedInitialization"
              "Failed to create initial control plane Machine for cluster %s/%s control plane: %v"
              [EvS (Cluster.Namespace cluster); EvS (Cluster.Name cluster); EvV (Some e)]]
      end.
Proof.
  intros Hread Hinit.
  destruct (GetMachinesForCluster_frame _ _ _ _ _ Hread) as (Hobj & _ & Hev0).
  unfold initializeControlPlane. unfold mbind at 1, M_bind at 1. rewrite Hread.
  cbn [length Nat.ltb Nat.leb]. rewrite Hinit. cbv zeta. unfold mbind, M_bind. cbv beta.
  pose proof (silent_cloneConfigsAndGenerateMachine cluster rcp (Some spec)
                (NextFailureDomainForScaleUp c) w1) as Hev.
  unfold noNewMachine. rewrite <- Hobj, <- Hev0.
  destruct (provisioning_cases cluster rcp spec (NextFailureDomainForScaleUp c) w1)
    as ([e|] & w2 & Hrun & Hcases); rewrite Hrun in Hev |- *; cbn in Hev.
  - eexists (_, Some e), _. split; [reflexivity|]. cbn. split; [done|].
    split; [exact Hcases|]. by rewrite Hev.
  - eexists (_, None), _. split; [reflexivity|]. cbn. split; [done|]. split; [done|].
    destruct Hcases as (m & ? & ? & ? & ? & _). exists m. done.
Qed.

Lemma initialize_provisions_one_machine_witness :
  ∃ r w',
    initializeControlPlane sampleCluster sampleRCP (viewOf []) servingWorld = (Returned r, w')
    ∧ r = (requeueResult, None)
    ∧ ∃ m, objects w' !! machineKey m = Some (MachineObject m)
           ∧ Machine.FailureDomain m = None.
Proof.
  destruct (initialize_provisions_one_machine sampleCluster sampleRCP (viewOf []) "agent"
              servingWorld
              {| objects := ∅; calls := [CallList]; events := []; faults := [];
                 rand := ["x1"; "x2"; "x3"] |} eq_refl eq_refl)
    as (r & w' & Hrun & Hcases).
  exists r, w'. split; [exact Hrun|].
  assert (r = (requeueResult, None)) as ->.
  { vm_compute in Hrun. by injection Hrun as <- _. }
  split; [reflexivity|]. cbn in Hcases.
  destruct Hcases as (_ & _ & m & _ & Hm & _ & Hfd). exists m. split; [exact Hm|exact Hfd].
Defined.

(** X7: a failed uncached read stops the initialization.  The error of the
    read is returned as it is, with an empty result; nothing but the read was
    sent to the store, and no event was recorded. *)
Theorem initialize_read_failure (cluster : Cluster.t) (rcp : RKE2ControlPlane.t)
    (c : ControlPlane.t) (w w1 : World) (ownedMachines : list Machine.t) (err : error) :
  GetMachinesForCluster cluster (OwnedMachines rcp) w
  = (Returned (ownedMachines, Some err), w1) →
  initializeControlPlane cluster rcp c w = (Returned (emptyResult, Some err), w1)
  ∧ objects w1 = objects w
  ∧ calls w1 = calls w ++ [CallList]
  ∧ events w1 = events w.
Proof.
  intros Hread. split; [|by eapply GetMachinesForCluster_frame].
  unfold initializeControlPlane, mbind, M_bind. by rewrite Hread.
Qed.

Lemma initialize_read_failure_witness :
  initializeControlPlane sampleCluster sampleRCP (viewOf [])
    {| objects := ∅; calls := []; events := []; faults := [Some FaultTimeout]; rand := [] |}
  = (Returned (emptyResult, Some (StatusError StatusReasonTimeout)),
     {| objects := ∅; calls := [CallList]; events := []; faults := []; rand := [] |}).
Proof.
  exact (proj1 (initialize_read_failure sampleCluster sampleRCP (viewOf [])
           {| objects := ∅; calls := []; events := []; faults := [Some FaultTimeout];
              rand := [] |}
           {| objects := ∅; calls := [CallList]; events := []; faults := []; rand := [] |}
           [] (StatusError StatusReasonTimeout) eq_refl)).
Defined.

(** ** What a scale down touches *)

Lemma IsZero_true (r : Result) : IsZero r = true → r = emptyResult.
Proof. destruct r as [[] []]; cbn; by try discriminate. Qed.

(** The steps of a scale down, one after the other. *)
Lemma scaleDownControlPlane_steps
    (pick : ControlPlane.t → list Machine.t → option Machine.t * option error)
    (cluster : Cluster.t) (rcp : RKE2ControlPlane.t) (c : ControlPlane.t)
    (outdatedMachines : list Machine.t) (w : World) :
  scaleDownControlPlane pick cluster rcp c outdatedMachines w
  = match selectMachineForScaleDown pick c outdatedMachines with
    | (_, Some e) =>
        (Returned (emptyResult, Some (Wrap e "failed to select machine for scale down")), w)
    | (candidate, None) =>
        match preflightChecks c [candidate] w with
        | (Panicked msg, w1) => (Panicked msg, w1)
        | (Returned (result, err), w1) =>
            if bool_decide (is_Some err) || negb (IsZero result)
            then (Returned (result, err), w1)
            else
              match candidate with
              | None =>
                  (Returned (emptyResult,
                             Some (Errorf "failed to pick control plane Machine to delete" [])),
                   w1)
              | Some m =>
                  match Client_Delete (machineKey m) w1 with
                  | (Panicked msg, w2) => (Panicked msg, w2)
                  | (Returned None, w2) => (Returned (requeueResult, None), w2)
                  | (Returned (Some e), w2) =>
                      if negb (IsNotFound e)
                      then (Returned (emptyResult, Some e),
                            (Eventf EventTypeWarning "FailedScaleDown"
                               "Failed to delete control plane Machine %s for cluster %s/%s control plane: %v"
                               [EvS (Machine.Name m); EvS (Cluster.Namespace cluster);
                                EvS (Cluster.Name cluster); EvV (Some e)] w2).2)
                      else (Returned (requeueResult, None), w2)
                  end
              end
        end
    end.
Proof.
  unfold scaleDownControlPlane.
  destruct (selectMachineForScaleDown pick c outdatedMachines) as [candidate [e|]];
    [reflexivity|].
  unfold mbind at 1, M_bind at 1.
  destruct (preflightChecks c [candidate] w) as [[[result err]|msg] w1]; [|reflexivity].
  destruct (bool_decide (is_Some err) || negb (IsZero result)); [reflexivity|].
  destruct candidate as [m|]; [|reflexivity].
  unfold mbind, M_bind.
  destruct (Client_Delete (machineKey m) w1) as [[[e|]|msg] w2]; [|reflexivity|reflexivity].
  destruct (negb (IsNotFound e)); reflexivity.
Qed.

(** X8: a scale down sends at most one request to the store, the deletion of
    the selected machine, and only after a selection without error and a gate
    that passes.  It creates nothing, and whatever is stored under another key
    stays as it is. *)
Theorem scaleDown_touches_only_candidate
    (pick : ControlPlane.t → list Machine.t → option Machine.t * option error)
    (cluster : Cluster.t) (rcp : RKE2ControlPlane.t) (c : ControlPlane.t)
    (outdatedMachines : list Machine.t) (w : World) :
  (calls (scaleDownControlPlane pick cluster rcp c outdatedMachines w).2 = calls w
   ∧ objects (scaleDownControlPlane pick cluster rcp c outdatedMachines w).2 = objects w)
  ∨ ∃ m,
      selectMachineForScaleDown pick c outdatedMachines = (Some m, None)
      ∧ (preflightChecks c [Some m] w).1 = Returned (emptyResult, None)
      ∧ calls (scaleDownControlPlane pick cluster rcp c outdatedMachines w).2
        = calls w ++ [CallDelete (machineKey m)]
      ∧ (objects (scaleDownControlPlane pick cluster rcp c outdatedMachines w).2
         = delete (machineKey m) (objects w)
         ∨ objects (scaleDownControlPlane pick cluster rcp c outdatedMachines w).2
           = objects w).
Proof.
  rewrite scaleDownControlPlane_steps.
  destruct (selectMachineForScaleDown pick c outdatedMachines) as [candidate [e|]];
    [by left|].
  destruct (preflightChecks_storeFree c [candidate] w) as (Hobj & Hcalls & _).
  destruct (preflightChecks c [candidate] w) as [[[result err]|msg] w1] eqn:Hgate;
    cbn [snd] in Hobj, Hcalls; [|by left].
  destruct err as [err|].
  { rewrite bool_decide_eq_true_2 by eauto. by left. }
  rewrite bool_decide_eq_false_2 by (intros [? ?]; discriminate). cbn [orb].
  destruct (IsZero result) eqn:Hzero; cbn [negb]; [|by left].
  apply IsZero_true in Hzero as ->.
  destruct candidate as [m|]; [|by left].
  right. exists m. split; [done|]. split; [by rewrite Hgate|].
  destruct (Client_Delete_spec (machineKey m) w1) as (r & w2 & -> & Hcalls2 & Hcases).
  rewrite Hcalls in Hcalls2. rewrite Hobj in Hcases.
  destruct Hcases as [[[->|(e & -> & ->)] Hobj2]|(e & -> & -> & Hobj2)]; cbn; auto.
Qed.

(** ** The cleanup *)

Lemma foldl_delete_lookup (keys : list ObjectKey) (store : gmap ObjectKey Object)
    (key : ObjectKey) :
  foldl (λ store key, delete key store) store keys !! key
  = if decide (key ∈ keys) then None else store !! key.
Proof.
  revert store. induction keys as [|k keys IH]; intros store; cbn [foldl].
  { rewrite decide_False; [done|]. apply not_elem_of_nil. }
  rewrite IH. destruct (decide (key ∈ keys)) as [Hin|Hout].
  - rewrite decide_True; [done|by right].
  - destruct (decide (key = k)) as [->|Hne].
    + rewrite decide_True; [|by left]. apply lookup_delete_eq.
    + rewrite decide_False; [by apply lookup_delete_ne|].
      intros [?|?]%elem_of_cons; done.
Qed.

Lemma cleanupLoop_frame (remoteRefs : list (option ObjectReference.t)) (errs : list error)
    (w : World) (key : ObjectKey) :
  key ∉ refKey <$> omap id remoteRefs →
  objects (cleanupLoop remoteRefs errs w).2 !! key = objects w !! key.
Proof.
  revert errs w. induction remoteRefs as [|[ref|] refs IH]; intros errs w Hout;
    cbn [cleanupLoop]; [done| |by apply IH].
  cbn in Hout. apply not_elem_of_cons in Hout as [Hne Hout].
  unfold mbind, M_bind.
  destruct (Client_Delete_spec (refKey ref) w) as (r & w1 & -> & _ & Hcases).
  assert (objects w1 !! key = objects w !! key) as <-.
  { destruct Hcases as [[_ ->]|(e & _ & _ & ->)]; [by apply lookup_delete_ne|done]. }
  destruct r as [e|]; [destruct (negb (IsNotFound e))|]; by apply IH.
Qed.

(** X9: the cleanup sends one deletion for each reference that is not nil, in
    order, and nothing else; it leaves what is stored under any other key as it
    is.  When it returns nil, nothing is stored any more under the keys of the
    references, whether a deletion removed the object or found it already
    gone; when it returns an error, the error is the aggregate of the failed
    deletions, none of them a "not found". *)
Theorem cleanupFromGeneration_removes_references
    (remoteRefs : list (option ObjectReference.t)) (w : World) :
  ∃ r w',
    cleanupFromGeneration remoteRefs w = (Returned r, w')
    ∧ calls w' = calls w ++ (CallDelete <$> (refKey <$> omap id remoteRefs))
    ∧ (∀ key, key ∉ refKey <$> omap id remoteRefs → objects w' !! key = objects w !! key)
    ∧ match r with
      | None => ∀ key, key ∈ refKey <$> omap id remoteRefs → objects w' !! key = None
      | Some e => ∃ ds, e = Aggregate ds ∧ ds ≠ [] ∧ Forall cleanupFailure ds
      end.
Proof.
  unfold cleanupFromGeneration, mbind, M_bind.
  pose proof (cleanupLoop_frame remoteRefs [] w) as Hframe.
  destruct (cleanupLoop_spec remoteRefs [] w) as (ds & w' & Hrun & Hcalls & Hds & Hclean & _).
  rewrite Hrun in Hframe |- *. cbn [app snd] in *.
  exists (NewAggregate ds), w'. split; [reflexivity|]. split; [exact Hcalls|].
  split; [exact Hframe|].
  destruct ds as [|d ds]; cbn [NewAggregate].
  - intros key Hin. rewrite (Hclean eq_refl), foldl_delete_lookup. by rewrite decide_True.
  - exists (d :: ds). done.
Qed.

(** ** The two creations of the provisioner *)

(** X10: the creation of the bootstrap configuration returns a reference
    with a nil error, or a nil reference with the wrapped error of the store,
    never both and never neither.  The reference names an [RKE2Config] of the
    control plane's namespace, stored under a key that was free, which carries
    the given agent configuration and is owned by the control plane without
    being controlled by it; on an error the store is as it was.  A nil agent
    configuration panics before anything is sent. *)
Theorem generateRKE2Config_outcome (rcp : RKE2ControlPlane.t) (cluster : Cluster.t)
    (spec : RKE2AgentConfig) (w : World) :
  (∃ r w',
     generateRKE2Config rcp cluster (Some spec) w = (Returned r, w')
     ∧ match r with
       | (Some ref, None) =>
           ObjectReference.Kind ref = "RKE2Config"
           ∧ ObjectReference.Namespace ref = RKE2ControlPlane.Namespace rcp
           ∧ ObjectReference.APIVersion ref = bootstrapv1_GroupVersion
           ∧ objects w !! refKey ref = None
           ∧ ∃ config,
               objects w' = <[refKey ref := ConfigObject config]> (objects w)
               ∧ RKE2Config.Name config = ObjectReference.Name ref
               ∧ RKE2Config.AgentConfig config = spec
               ∧ RKE2Config.Labels config = ControlPlaneLabelsForCluster (Cluster.Name cluster)
               ∧ RKE2Config.OwnerReferences config
                 = [{| OwnerReference.APIVersion := controlplanev1_GroupVersion;
                       OwnerReference.Kind := "RKE2ControlPlane";
                       OwnerReference.Name := RKE2ControlPlane.Name rcp;
                       OwnerReference.UID := RKE2ControlPlane.UID rcp;
                       OwnerReference.Controller := None |}]
       | (None, Some e) =>
           objects w' = objects w
           ∧ ∃ e0, e = Wrap e0 "Failed to create bootstrap configuration"
       | _ => False
       end)
  ∧ (generateRKE2Config rcp cluster None w).1 = Panicked nilDereference
  ∧ calls (generateRKE2Config rcp cluster None w).2 = calls w
  ∧ objects (generateRKE2Config rcp cluster None w).2 = objects w.
Proof.
  split; [|done].
  unfold generateRKE2Config. unfold mbind at 1, M_bind at 1.
  destruct (GenerateName_run (RKE2ControlPlane.Name rcp ++ "-")%string w)
    as (name & w0 & -> & Hobj0 & _).
  unfold deref. unfold mbind at 1, M_bind at 1, mret at 1, M_ret at 1.
  unfold mbind, M_bind.
  match goal with |- context [Client_Create ?k ?o w0] =>
    destruct (Client_Create_spec k o w0) as (r & w' & -> & _ & Hcases)
  end.
  destruct Hcases as [(e & -> & Hobj)|(-> & Hfree & Hobj)].
  - eexists (None, Some _), w'. split; [reflexivity|]. split; [by rewrite Hobj|]. eauto.
  - eexists (Some _, None), w'. split; [reflexivity|]. cbn.
    rewrite <- Hobj0. do 3 (split; [reflexivity|]). split; [exact Hfree|].
    eexists. split; [exact Hobj|]. done.
Qed.

(** X11: the creation of the machine either stores one machine under a key
    that was free and returns nil, or returns an error and leaves the store as
    it was.  The stored machine is in the namespace of the control plane and
    controlled by it, carries the translated version, the two references and
    the failure domain it was given and the drain timeout of the control plane,
    and reading its server-configuration annotation gives back the marshalled
    server configuration.  A nil infrastructure reference panics before
    anything is sent. *)
Theorem generateMachine_outcome (rcp : RKE2ControlPlane.t) (cluster : Cluster.t)
    (infra : ObjectReference.t) (bootstrapRef : option ObjectReference.t)
    (failureDomain : option string) (w : World) :
  (∃ r w',
     generateMachine rcp cluster (Some infra) bootstrapRef failureDomain w = (Returned r, w')
     ∧ match r with
       | None =>
           ∃ m json,
             objects w !! machineKey m = None
             ∧ objects w' = <[machineKey m := MachineObject m]> (objects w)
             ∧ json_Marshal (RKE2ControlPlane.ServerConfig rcp) = (json, None)
             ∧ Machine.Annotations m !! RKE2ServerConfigurationAnnotation = Some json
             ∧ Machine.Version m = Some (rke2ToKubeVersion (RKE2ControlPlane.Version rcp)).1
             ∧ Machine.Namespace m = RKE2ControlPlane.Namespace rcp
             ∧ Machine.ClusterName m = Cluster.Name cluster
             ∧ Machine.OwnerReferences m
               = [NewControllerRef rcp controlplanev1_GroupVersion "RKE2ControlPlane"]
             ∧ Machine.InfrastructureRef m = infra
             ∧ Machine.ConfigRef m = bootstrapRef
             ∧ Machine.FailureDomain m = failureDomain
             ∧ Machine.NodeDrainTimeout m = RKE2ControlPlane.NodeDrainTimeout rcp
             ∧ Machine.DeletionTimestamp m = None
       | Some e => objects w' = objects w
       end)
  ∧ (generateMachine rcp cluster None bootstrapRef failureDomain w).1
    = Panicked nilDereference
  ∧ calls (generateMachine rcp cluster None bootstrapRef failureDomain w).2 = calls w
  ∧ objects (generateMachine rcp cluster None bootstrapRef failureDomain w).2 = objects w.
Proof.
  split; [|done].
  unfold generateMachine, rke2ToKubeVersion. cbn [fst].
  unfold mbind at 1, M_bind at 1.
  destruct (GenerateName_run (RKE2ControlPlane.Name rcp ++ "-")%string w)
    as (name & w0 & -> & Hobj0 & _).
  unfold deref. unfold mbind at 1, M_bind at 1, mret at 1, M_ret at 1.
  destruct (RKE2ControlPlane.ServerConfig rcp) as [json|err] eqn:Hcfg; cbn [json_Marshal].
  2:{ eexists (Some _), _. split; [reflexivity|]. exact Hobj0. }
  unfold mbind, M_bind.
  match goal with |- context [Client_Create ?k ?o w0] =>
    destruct (Client_Create_spec k o w0) as (r & w' & -> & _ & Hcases)
  end.
  destruct Hcases as [(e & -> & Hobj)|(-> & Hfree & Hobj)].
  - eexists (Some _), w'. split; [reflexivity|]. by rewrite Hobj.
  - eexists None, w'. split; [reflexivity|].
    eexists {| Machine.Name := name |}, json. rewrite <- Hobj0.
    split; [exact Hfree|]. split; [exact Hobj|]. split; [reflexivity|].
    split; [apply lookup_singleton_eq|]. cbn. done.
Qed.

(** X12: a gate that does not pass stops the scale down before the deletion.
    The operation hands back the result of the gate as it is, with its backoff
    and a nil error, and has sent nothing to the store: the selected machine is
    still there. *)
Theorem scaleDown_blocked_by_gate
    (pick : ControlPlane.t → list Machine.t → option Machine.t * option error)
    (cluster : Cluster.t) (rcp : RKE2ControlPlane.t) (c : ControlPlane.t)
    (outdatedMachines : list Machine.t) (candidate : option Machine.t)
    (result : Result) (w : World) :
  selectMachineForScaleDown pick c outdatedMachines = (candidate, None) →
  (preflightChecks c [candidate] w).1 = Returned (result, None) →
  IsZero result = false →
  scaleDownControlPlane pick cluster rcp c outdatedMachines w
  = preflightChecks c [candidate] w
  ∧ (scaleDownControlPlane pick cluster rcp c outdatedMachines w).1 = Returned (result, None)
  ∧ objects (scaleDownControlPlane pick cluster rcp c outdatedMachines w).2 = objects w
  ∧ calls (scaleDownControlPlane pick cluster rcp c outdatedMachines w).2 = calls w.
Proof.
  intros Hsel Hgate Hblocked.
  assert (scaleDownControlPlane pick cluster rcp c outdatedMachines w
          = preflightChecks c [candidate] w) as Heq.
  { rewrite scaleDownControlPlane_steps, Hsel.
    destruct (preflightChecks c [candidate] w) as [[[res err]|msg] w1]; [|done].
    cbn in Hgate. injection Hgate as -> ->. rewrite Hblocked.
    by rewrite orb_true_r. }
  rewrite Heq. split; [done|]. split; [done|].
  destruct (preflightChecks_storeFree c [candidate] w) as (Hobj & Hcalls & _). done.
Qed.

Lemma scaleDown_blocked_by_gate_witness :
  scaleDownControlPlane MachineInFailureDomainWithMostMachines sampleCluster sampleRCP
    (viewOf [healthyMachine "m1"; unhealthyMachine "m2"]) []
    {| objects := {[ machineKey (healthyMachine "m1") := MachineObject (healthyMachine "m1") ]};
       calls := []; events := []; faults := []; rand := [] |}
  = preflightChecks (viewOf [healthyMachine "m1"; unhealthyMachine "m2"])
      [Some (healthyMachine "m1")]
      {| objects := {[ machineKey (healthyMachine "m1")
                       := MachineObject (healthyMachine "m1") ]};
         calls := []; events := []; faults := []; rand := [] |}.
Proof.
  refine (proj1 (scaleDown_blocked_by_gate MachineInFailureDomainWithMostMachines
            sampleCluster sampleRCP (viewOf [healthyMachine "m1"; unhealthyMachine "m2"]) []
            (Some (healthyMachine "m1")) unhealthyResult _ _ _ _)); vm_compute; reflexivity.
Defined.

(** ** The candidates of a scale down *)

Lemma filter_nil_none {A} (f : A → bool) (l : list A) (x : A) :
  List.filter f l = [] → x ∈ l → f x = false.
Proof.
  intros Hnil Hin. destruct (f x) eqn:Hfx; [|done].
  assert (In x (List.filter f l)) as Hx.
  { apply filter_In. split; [by apply list_elem_of_In|done]. }
  rewrite Hnil in Hx. destruct Hx.
Qed.

(** X13: whatever picks among them, the candidates handed to the picker are
    machines of the outdated set or of the view; there is none only when both
    are empty; and as soon as one machine of the outdated set or of the view
    carries the delete-requested annotation, every candidate carries it. *)
Theorem selectMachineForScaleDown_candidates (c : ControlPlane.t)
    (outdatedMachines : list Machine.t) :
  ∃ pool,
    (∀ pick, selectMachineForScaleDown pick c outdatedMachines = pick c pool)
    ∧ (∀ m, m ∈ pool → m ∈ outdatedMachines ∨ m ∈ ControlPlane.Machines c)
    ∧ (pool = [] ↔ outdatedMachines = [] ∧ ControlPlane.Machines c = [])
    ∧ ((∃ m, (m ∈ outdatedMachines ∨ m ∈ ControlPlane.Machines c)
             ∧ HasAnnotationKey DeleteMachineAnnotation m = true) →
       ∀ m, m ∈ pool → HasAnnotationKey DeleteMachineAnnotation m = true).
Proof.
  exists (candidatePool c outdatedMachines).
  split; [intros; apply selectMachineForScaleDown_pool|].
  unfold candidatePool. cbn [firstNonEmpty].
  destruct (List.filter _ outdatedMachines) as [|a A] eqn:HA.
  2:{ rewrite <- HA. split; [|split; [|intros _]].
      - intros m [Hm _]%list_elem_of_In%filter_In. left. by apply list_elem_of_In.
      - rewrite HA. split; [discriminate|]. intros [-> _]. discriminate.
      - by intros m [_ Hm]%list_elem_of_In%filter_In. }
  destruct (List.filter _ (ControlPlane.Machines c)) as [|b B] eqn:HB.
  2:{ rewrite <- HB. split; [|split; [|intros _]].
      - intros m [Hm _]%list_elem_of_In%filter_In. right. by apply list_elem_of_In.
      - rewrite HB. split; [discriminate|]. intros [_ Hnil]. rewrite Hnil in HB. discriminate.
      - by intros m [_ Hm]%list_elem_of_In%filter_In. }
  assert ((∃ m, (m ∈ outdatedMachines ∨ m ∈ ControlPlane.Machines c)
                ∧ HasAnnotationKey DeleteMachineAnnotation m = true) → False) as Hnone.
  { intros (m & [Hm|Hm] & Hann);
      [rewrite (filter_nil_none _ _ _ HA Hm) in Hann
      |rewrite (filter_nil_none _ _ _ HB Hm) in Hann]; discriminate. }
  destruct outdatedMachines as [|o os].
  - assert (match ControlPlane.Machines c with [] => [] | x :: l => x :: l end
            = ControlPlane.Machines c) as -> by (by destruct (ControlPlane.Machines c)).
    split; [intros m Hm; by right|]. split; [|by intros ?%Hnone].
    split; [done|by intros [_ ?]].
  - split; [intros m Hm; by left|]. split; [|by intros ?%Hnone].
    split; [discriminate|by intros [? _]].
Qed.

(** ** More on the health loop *)

Lemma excludedLoop_nil_entry (m : Machine.t) (before : list Machine.t)
    (after : list (option Machine.t)) :
  excludedLoop m ((Some <$> before) ++ None :: after)
  = if excludedByName before m then Returned true else Panicked nilDereference.
Proof.
  induction before as [|e before IH]; cbn; [reflexivity|].
  destruct (String.eqb (Machine.Name m) (Machine.Name e)); [reflexivity|apply IH].
Qed.

(** X14: a nil entry in the exclusion list is read only by a machine that no
    earlier entry excludes.  The health loop returns, with nothing collected,
    when every machine of the view bears a name excluded before the nil entry;
    otherwise it panics on the nil entry, whatever the health of the
    machines. *)
Theorem loopmachines_nil_exclusion (machines before : list Machine.t)
    (after : list (option Machine.t)) (machineErrors : list error) :
  loopmachines machines ((Some <$> before) ++ None :: after) machineErrors
  = if forallb (excludedByName before) machines
    then Returned machineErrors
    else Panicked nilDereference.
Proof.
  induction machines as [|m ms IH]; cbn [loopmachines forallb]; [reflexivity|].
  rewrite excludedLoop_nil_entry.
  destruct (excludedByName before m); cbn [andb]; [apply IH|reflexivity].
Qed.

Lemma blockingErrors_no_exclusion (machines : list Machine.t) (m : Machine.t) :
  m ∈ machines → unhealthy m MachineAgentHealthyCondition →
  blockingErrors [] machines ≠ [].
Proof.
  intros Hm Hbad Hnil.
  apply (preflightCheckCondition_unhealthy "machine") in Hbad as [err Herr].
  assert (err ∈ blockingErrors [] machines) as Hin.
  { unfold blockingErrors. apply list_elem_of_In, in_flat_map. exists m. split.
    - apply filter_In. split; [by apply list_elem_of_In|done].
    - apply list_elem_of_In, list_elem_of_omap. exists MachineAgentHealthyCondition.
      split; [by left|done]. }
  rewrite Hnil in Hin. by apply elem_of_nil in Hin.
Qed.

(** X15: a scale up creates nothing while the view is unstable.  When the
    view has a deleting machine, or a member whose agent-health condition is
    absent, false or unknown, the operation returns a backoff with a nil
    error and has sent nothing to the store. *)
Theorem scaleUp_waits_for_stable_view (cluster : Cluster.t) (rcp : RKE2ControlPlane.t)
    (c : ControlPlane.t) (w : World) :
  ControlPlane.Machines c ≠ [] →
  HasDeletingMachine c = true
  ∨ (∃ m, m ∈ ControlPlane.Machines c ∧ unhealthy m MachineAgentHealthyCondition) →
  (∃ backoff, backoff ≠ zeroDuration
              ∧ (scaleUpControlPlane cluster rcp c w).1
                = Returned ({| Requeue := false; RequeueAfter := backoff |}, None))
  ∧ objects (scaleUpControlPlane cluster rcp c w).2 = objects w
  ∧ calls (scaleUpControlPlane cluster rcp c w).2 = calls w.
Proof.
  intros Hne Hunstable.
  assert (∃ backoff, backoff ≠ zeroDuration
            ∧ (preflightChecks c [] w).1
              = Returned ({| Requeue := false; RequeueAfter := backoff |}, None))
    as (backoff & Hbackoff & Hgate).
  { destruct (HasDeletingMachine c) eqn:Hdel.
    - exists deleteRequeueAfter. split; [done|]. unfold preflightChecks. rewrite Hdel.
      by destruct (ControlPlane.Machines c).
    - destruct Hunstable as [?|(m & Hm & Hbad)]; [done|].
      exists preflightFailedRequeueAfter. split; [done|].
      rewrite preflightChecks_health by done.
      pose proof (loopmachines_Some (ControlPlane.Machines c) [] []) as Hloop.
      cbn [fmap list_fmap app] in Hloop. rewrite Hloop.
      pose proof (blockingErrors_no_exclusion _ _ Hm Hbad).
      by destruct (blockingErrors [] (ControlPlane.Machines c)). }
  assert (scaleUpControlPlane cluster rcp c w = preflightChecks c [] w) as Heq.
  { unfold scaleUpControlPlane, mbind, M_bind.
    destruct (preflightChecks c [] w) as [[[res err]|msg] w1]; [|done].
    cbn in Hgate. injection Hgate as -> ->.
    destruct backoff; [done|reflexivity|reflexivity]. }
  rewrite Heq. split; [by exists backoff|].
  destruct (preflightChecks_storeFree c [] w) as (Hobj & Hcalls & _). done.
Qed.

Lemma scaleUp_waits_for_stable_view_witness :
  (∃ backoff, backoff ≠ zeroDuration
              ∧ (scaleUpControlPlane sampleCluster sampleRCP
                   (viewOf [healthyMachine "m1"; unhealthyMachine "m2"]) servingWorld).1
                = Returned ({| Requeue := false; RequeueAfter := backoff |}, None))
  ∧ objects (scaleUpControlPlane sampleCluster sampleRCP
               (viewOf [healthyMachine "m1"; unhealthyMachine "m2"]) servingWorld).2
    = objects servingWorld
  ∧ calls (scaleUpControlPlane sampleCluster sampleRCP
             (viewOf [healthyMachine "m1"; unhealthyMachine "m2"]) servingWorld).2
    = calls servingWorld.
Proof.
  apply (scaleUp_waits_for_stable_view sampleCluster sampleRCP
           (viewOf [healthyMachine "m1"; unhealthyMachine "m2"]) servingWorld);
    [discriminate|].
  right. exists (unhealthyMachine "m2"). split.
  - apply list_elem_of_In. right. left. reflexivity.
  - cbn. by left.
Defined.
